(** * The cpucore cooling device (drivers/thermal/cpucore_cooling.c)

    A shallow embedding of the thermal cooling device that limits the number
    of online CPU cores, and the properties of its control surface, trip
    notification and registration life cycle. *)

From Stdlib Require Import ZArith Lia List Bool.
From stdpp Require Import base numbers option list gmap sets strings pretty.

Local Open Scope Z_scope.

(** ** C integer types

    The driver runs on a 64-bit kernel: [unsigned long] and [long] are 64 bits
    wide, [int] is 32 bits wide.  Values are kept in [Z]; every conversion
    the C code performs is written out with one of the functions below. *)

Definition BITS_PER_LONG : Z := 64.
Definition ULONG_MAX : Z := 2 ^ BITS_PER_LONG - 1.
Definition INT_MAX : Z := 2 ^ 31 - 1.

(** Conversion to [unsigned long]: reduction modulo 2^64. *)
Definition to_ulong (z : Z) : Z := z mod 2 ^ BITS_PER_LONG.

(** Conversion to [int]: the low 32 bits, read in two's complement. *)
Definition to_int (z : Z) : Z := (z + 2 ^ 31) mod 2 ^ 32 - 2 ^ 31.

(** errno values used by the driver. *)
Definition ENOMEM : Z := 12.
Definition EINVAL : Z := 22.
Definition ENOSPC : Z := 28.

(** ** Data model *)

(** Modelled from the spec: [struct cpucore_cooling_device] is declared in
    linux/cpucore_cooling.h, a header that is absent from the driver's
    sources.  The fields are the ones the driver reads and writes; each holds the value
    assigned to it (the spec gives the levels as integers and the stop flag
    as a boolean latch).  [cool_dev] is the framework handle, [None] for a
    null pointer. *)
Record cpucore_cooling_device := mk_cpucore_cooling_device {
  id : Z;
  cool_dev : option Z;
  cpucore_state : Z;
  max_cpu_core_num : Z;
  stop_flag : bool
}.

Definition set_id (v : Z) (d : cpucore_cooling_device) :=
  mk_cpucore_cooling_device v (cool_dev d) (cpucore_state d)
    (max_cpu_core_num d) (stop_flag d).
Definition set_cool_dev (v : option Z) (d : cpucore_cooling_device) :=
  mk_cpucore_cooling_device (id d) v (cpucore_state d)
    (max_cpu_core_num d) (stop_flag d).
Definition set_cpucore_state (v : Z) (d : cpucore_cooling_device) :=
  mk_cpucore_cooling_device (id d) (cool_dev d) v
    (max_cpu_core_num d) (stop_flag d).
Definition set_max_cpu_core_num (v : Z) (d : cpucore_cooling_device) :=
  mk_cpucore_cooling_device (id d) (cool_dev d) (cpucore_state d)
    v (stop_flag d).
Definition set_stop_flag (v : bool) (d : cpucore_cooling_device) :=
  mk_cpucore_cooling_device (id d) (cool_dev d) (cpucore_state d)
    (max_cpu_core_num d) v.

(** What a control-surface call on one cooling device can read and change:
    the record behind [cdev->devdata], and the calls made so far to the
    external actuator [cpufreq_set_max_cpu_num] (its argument, most recent
    call first). *)
Record world := mk_world {
  devdata : cpucore_cooling_device;
  cpufreq_calls : list Z
}.

(** The callbacks read and update the device through the pointer they are
    given: a state-passing computation over [world]. *)
Definition cb (A : Type) : Type := world -> A * world.

Definition cb_ret {A} (a : A) : cb A := fun w => (a, w).
Definition cb_bind {A B} (m : cb A) (k : A -> cb B) : cb B :=
  fun w => let (a, w') := m w in k a w'.

#[global] Instance cb_mret : MRet cb := @cb_ret.
#[global] Instance cb_mbind : MBind cb := fun A B k m => cb_bind m k.

Definition get_devdata : cb cpucore_cooling_device :=
  fun w => (devdata w, w).
Definition put_devdata (d : cpucore_cooling_device) : cb unit :=
  fun w => (tt, mk_world d (cpufreq_calls w)).
(** The external call [cpufreq_set_max_cpu_num (n)]; its result is ignored
    by the driver. *)
Definition cpufreq_set_max_cpu_num (n : Z) : cb unit :=
  fun w => (tt, mk_world (devdata w) (n :: cpufreq_calls w)).

Definition exec {A} (m : cb A) (w : world) : world := snd (m w).
Definition eval {A} (m : cb A) (w : world) : A := fst (m w).

(** Trip types of the thermal framework (linux/thermal.h); the driver tells
    [THERMAL_TRIP_HOT] from the others. *)
Inductive thermal_trip_type :=
| THERMAL_TRIP_ACTIVE
| THERMAL_TRIP_PASSIVE
| THERMAL_TRIP_HOT
| THERMAL_TRIP_CRITICAL.

(** Modelled from the spec: [struct thermal_instance] and
    [get_thermal_instance] belong to the thermal core, outside the driver's
    sources.  An instance carries the upper bound it declares; a
    zone gives, for a trip index, the instance that binds this cooling device
    at that trip, or [None] where the lookup returns a null pointer. *)
Record thermal_instance := mk_thermal_instance { upper : Z }.

Record thermal_zone_device := mk_thermal_zone_device {
  enter_hot : bool;
  trips : Z;
  get_thermal_instance : Z -> option thermal_instance
}.

(** The declaration of [thermal_instance.upper] decides how the scan compares
    it with the local [long upper]: as two signed values, or, were the field
    an [unsigned long], after converting the local to [unsigned long]. *)
Inductive upper_decl := upper_long | upper_ulong.

(** ** The control surface *)

Section Cooling.

(** The reserved stop flag of the state word, a macro of
    linux/cpucore_cooling.h; its value is a parameter of the development.
    The mask [~CPU_STOP] is taken at the width of the state word: stripping
    clears the bits of the flag and no other. *)
Variable CPU_STOP : Z.

(** How [thermal_instance.upper] is declared. *)
Variable upper_type : upper_decl.

(** [cpucore_get_max_state]: returns 0 and stores the maximum level in
    [*state]; the result is the pair of the return value and [*state]. *)
Definition cpucore_get_max_state : cb (Z * Z) :=
  cpucore_device ← get_devdata;
  mret (0, to_ulong (max_cpu_core_num cpucore_device)).

(** [cpucore_get_cur_state]: returns 0 and stores the current level in
    [*state]. *)
Definition cpucore_get_cur_state : cb (Z * Z) :=
  cpucore_device ← get_devdata;
  mret (0, to_ulong (cpucore_state cpucore_device)).

(** [cpucore_set_cur_state]: [state] is an [unsigned long]; the guard
    [max_cpu_core_num - state > 0] is evaluated in [unsigned long], and
    [set_max_num] is an [int]. *)
Definition cpucore_set_cur_state (state : Z) : cb Z :=
  cpucore_device ← get_devdata;
  if stop_flag cpucore_device then mret 0
  else
    state ← (if Z.land state CPU_STOP =? CPU_STOP
               then put_devdata (set_stop_flag true cpucore_device);;
                    mret (Z.land state (Z.lnot CPU_STOP))
               else mret state);
    cpucore_device ← get_devdata;
    if 0 <? to_ulong (max_cpu_core_num cpucore_device - state) then
      put_devdata (set_cpucore_state state cpucore_device);;
      let set_max_num := to_int (to_ulong (max_cpu_core_num cpucore_device - state)) in
      cpufreq_set_max_cpu_num set_max_num;;
      mret 0
    else mret 0.

(** The power-model hooks. *)
Definition cpucore_get_requested_power : cb (Z * Z) := mret (0, 0).

Definition cpucore_state2power (state : Z) : cb (Z * Z) := mret (0, 0).

Definition cpucore_power2state (power : Z) : cb (Z * Z) :=
  r ← cpucore_get_cur_state;
  mret (0, snd r).

(** ** The notification algorithm *)

(** [ins->upper > upper] *)
Definition instance_upper_gt (ins_upper upper : Z) : bool :=
  match upper_type with
  | upper_long => upper <? ins_upper
  | upper_ulong => to_ulong upper <? ins_upper
  end.

(** One iteration of the scan over the trips of the zone. *)
Definition scan_trip (tz : thermal_zone_device) (upper0 : Z) (i : Z) : Z :=
  match get_thermal_instance tz i with
  | Some ins => if instance_upper_gt (upper ins) upper0 then upper ins else upper0
  | None => upper0
  end.

(** [for (i = 0; i < tz->trips; i++) ...], starting from [upper = -1]. *)
Definition scan_upper (tz : thermal_zone_device) : Z :=
  fold_left (scan_trip tz) (seqZ 0 (trips tz)) (-1).

(** [cpucore_notify_state]; [cdev->ops] is the table [cpucore_cooling_ops],
    so the two calls through it are calls of [cpucore_get_cur_state] and
    [cpucore_set_cur_state]. *)
Definition cpucore_notify_state (tz : thermal_zone_device)
    (type : thermal_trip_type) : cb Z :=
  match type with
  | THERMAL_TRIP_HOT =>
      if enter_hot tz then
        let upper := scan_upper tz in
        r ← cpucore_get_cur_state;
        let cur_state := snd r in
        let cur_state := to_ulong (cur_state + 1) in
        let cur_state :=
          if negb (upper =? -1) && (to_ulong upper <? cur_state)
          then to_ulong upper else cur_state in
        cpucore_set_cur_state cur_state;;
        mret 0
      else
        let cur_state := 0 in
        cpucore_set_cur_state cur_state;;
        mret 0
  | _ => mret 0
  end.

End Cooling.

(** A run of [k] hot-trip notifications on one zone. *)
Fixpoint notify_times (CPU_STOP : Z) (upper_type : upper_decl)
    (tz : thermal_zone_device) (k : nat) (w : world) : world :=
  match k with
  | O => w
  | S k' =>
      exec (cpucore_notify_state CPU_STOP upper_type tz THERMAL_TRIP_HOT)
           (notify_times CPU_STOP upper_type tz k' w)
  end.

(** The operations a governor can invoke on a registered device. *)
Inductive cooling_op :=
| op_get_max_state
| op_get_cur_state
| op_set_cur_state (state : Z)
| op_get_requested_power
| op_state2power (state : Z)
| op_power2state (power : Z)
| op_notify_state (tz : thermal_zone_device) (type : thermal_trip_type).

(** Dispatch through the table [cpucore_cooling_ops]. *)
Definition run_op (CPU_STOP : Z) (upper_type : upper_decl)
    (o : cooling_op) (w : world) : world :=
  match o with
  | op_get_max_state => exec cpucore_get_max_state w
  | op_get_cur_state => exec cpucore_get_cur_state w
  | op_set_cur_state state => exec (cpucore_set_cur_state CPU_STOP state) w
  | op_get_requested_power => exec cpucore_get_requested_power w
  | op_state2power state => exec (cpucore_state2power state) w
  | op_power2state power => exec (cpucore_power2state power) w
  | op_notify_state tz type =>
      exec (cpucore_notify_state CPU_STOP upper_type tz type) w
  end.

Definition run_ops (CPU_STOP : Z) (upper_type : upper_decl)
    (os : list cooling_op) (w : world) : world :=
  fold_left (fun w o => run_op CPU_STOP upper_type o w) os w.

(** The level a request asks for: the state word, without the stop flag when
    it carries it. *)
Definition requested_level (CPU_STOP state : Z) : Z :=
  if Z.land state CPU_STOP =? CPU_STOP then Z.land state (Z.lnot CPU_STOP)
  else state.

(** The return value of an operation dispatched through the table. *)
Definition op_status (CPU_STOP : Z) (upper_type : upper_decl)
    (o : cooling_op) (w : world) : Z :=
  match o with
  | op_get_max_state => fst (eval cpucore_get_max_state w)
  | op_get_cur_state => fst (eval cpucore_get_cur_state w)
  | op_set_cur_state state => eval (cpucore_set_cur_state CPU_STOP state) w
  | op_get_requested_power => fst (eval cpucore_get_requested_power w)
  | op_state2power state => fst (eval (cpucore_state2power state) w)
  | op_power2state power => fst (eval (cpucore_power2state power) w)
  | op_notify_state tz type =>
      eval (cpucore_notify_state CPU_STOP upper_type tz type) w
  end.

(** The operations that only read: all but [set_cur_state] and a
    notification of a hot trip. *)
Definition reads_only (o : cooling_op) : bool :=
  match o with
  | op_set_cur_state _ => false
  | op_notify_state _ THERMAL_TRIP_HOT => false
  | _ => true
  end.

(** ** The identifier allocator *)

(** The smallest integer from [n] on that is not in [used]; [fuel] bounds
    the search and the size of [used] is enough. *)
Fixpoint first_free (fuel : nat) (n : Z) (used : gset Z) : Z :=
  match fuel with
  | O => n
  | S fuel' =>
      if decide (n ∈ used) then first_free fuel' (n + 1) (used ∖ {[n]})
      else n
  end.

(** Modelled from the spec: [idr_alloc] and [idr_remove] belong to the
    kernel's idr library, outside the driver's sources.  The idr
    is the set of outstanding ids.  [idr_alloc (idr, NULL, 0, 0, GFP_KERNEL)]
    returns the smallest non-negative integer not currently outstanding and
    records it, and fails (a negative result) only when the index space, the
    non-negative [int]s, is saturated. *)
Definition idr_alloc (idr : gset Z) : Z * gset Z :=
  let n := first_free (size idr) 0 idr in
  if n <=? INT_MAX then (n, {[n]} ∪ idr) else (- ENOSPC, idr).

(** Modelled from the spec: [idr_remove] removes the id from the outstanding
    set; removing an id that is not outstanding changes nothing. *)
Definition idr_remove (idr : gset Z) (i : Z) : gset Z := idr ∖ {[i]}.

(** [get_idr]: [inr i] stands for the return value 0 with [*id = i], [inl
    ret] for the error return [ret].  The lock is held around the call of
    [idr_alloc] only and has no effect on a sequential run. *)
Definition get_idr (idr : gset Z) : (Z + Z) * gset Z :=
  let (ret, idr') := idr_alloc idr in
  if ret <? 0 then (inl ret, idr') else (inr ret, idr').

(** [release_idr] *)
Definition release_idr (idr : gset Z) (i : Z) : gset Z := idr_remove idr i.

(** ** Registration and removal *)

(** A cooling device of the thermal framework: its name and [devdata], the
    address of the driver's record. *)
Record thermal_cooling_device := mk_thermal_cooling_device {
  cdev_name : string;
  cdev_devdata : Z
}.

(** The kernel state the life cycle works on: the static [cpucore_idr], the
    records obtained from [kzalloc] by address, and the cooling devices the
    thermal framework has registered, by handle. *)
Record kernel := mk_kernel {
  cpucore_idr : gset Z;
  kmem : gmap Z cpucore_cooling_device;
  thermal_cdevs : gmap Z thermal_cooling_device
}.

(** How the framework's registration of a cooling device ends: with a new
    device, or with a failure, which the framework reports by an error
    pointer [ERR_PTR (e)] or by a null pointer. *)
Inductive thermal_register_outcome :=
| thermal_register_succeeds
| thermal_register_null
| thermal_register_err_ptr (e : Z).

(** What the environment decides during one registration: whether [kzalloc]
    succeeds, the number of possible CPUs, and how the framework's
    registration ends.  [THERMAL_NAME_LENGTH], the size of the name buffer,
    is a constant of linux/thermal.h and is taken from the platform as
    well. *)
Record platform := mk_platform {
  kzalloc_ok : bool;
  num_possible_cpus : Z;
  thermal_register : thermal_register_outcome;
  THERMAL_NAME_LENGTH : nat
}.

(** [snprintf (dev_name, size, "thermal-cpucore-%d", id)]: the formatted
    text, cut to [size - 1] characters. *)
Definition snprintf_dev_name (size : nat) (id : Z) : string :=
  String.substring 0 (size - 1) ("thermal-cpucore-" +:+ pretty id).

Definition zero_device : cpucore_cooling_device :=
  mk_cpucore_cooling_device 0 None 0 0 false.

(** Modelled from the spec: [kzalloc] and [kfree] are the kernel's
    allocator.  [kzalloc] gives a zero-filled record at a fresh address, or
    a null pointer; [kfree] ends the life of the record at [p]. *)
Definition kzalloc (ok : bool) (k : kernel) : option Z * kernel :=
  if ok then
    let p := fresh (dom (kmem k)) in
    (Some p, mk_kernel (cpucore_idr k) (<[p := zero_device]> (kmem k))
                       (thermal_cdevs k))
  else (None, k).

Definition kfree (p : Z) (k : kernel) : kernel :=
  mk_kernel (cpucore_idr k) (delete p (kmem k)) (thermal_cdevs k).

(** Field access through the pointer [p]. *)
Definition load (p : Z) (k : kernel) : cpucore_cooling_device :=
  default zero_device (kmem k !! p).
Definition store (p : Z) (f : cpucore_cooling_device -> cpucore_cooling_device)
    (k : kernel) : kernel :=
  mk_kernel (cpucore_idr k) (alter f p (kmem k)) (thermal_cdevs k).

Definition with_idr (f : gset Z -> gset Z) (k : kernel) : kernel :=
  mk_kernel (f (cpucore_idr k)) (kmem k) (thermal_cdevs k).

(** The pointer the framework's registration returns: the handle of the new
    device, a null pointer, or an error pointer. *)
Inductive cdev_pointer :=
| cdev_handle (h : Z)
| cdev_null
| cdev_err_ptr (e : Z).

(** The address an error pointer stands for, [(unsigned long) e]; it is not
    null. *)
Definition ERR_PTR (e : Z) : Z := to_ulong e.

(** Modelled from the spec: [thermal_of_cooling_device_register] and
    [thermal_cooling_device_unregister] belong to the thermal core, outside
    the driver's sources.  Registration either binds a new handle to the
    record and the operation table, or fails and leaves the framework as it
    was.  The spec speaks of a binding failure and does not say how it is
    reported: the kernel's interface reports it by an error pointer, and a
    null pointer is the one value the driver tests for; both are outcomes
    here. *)
Definition thermal_of_cooling_device_register
    (outcome : thermal_register_outcome) (dev_name : string)
    (devdata : Z) (k : kernel) : cdev_pointer * kernel :=
  match outcome with
  | thermal_register_succeeds =>
      let h := fresh (dom (thermal_cdevs k)) in
      (cdev_handle h, mk_kernel (cpucore_idr k) (kmem k)
                        (<[h := mk_thermal_cooling_device dev_name devdata]>
                           (thermal_cdevs k)))
  | thermal_register_null => (cdev_null, k)
  | thermal_register_err_ptr e => (cdev_err_ptr e, k)
  end.

Definition thermal_cooling_device_unregister (h : option Z) (k : kernel)
    : kernel :=
  match h with
  | Some h => mk_kernel (cpucore_idr k) (kmem k) (delete h (thermal_cdevs k))
  | None => k
  end.

(** [cpucore_cooling_register]: the pointer returned is [inr cool_dev] for
    the handle of a device and [inl err] for [ERR_PTR (err)].  The test
    [!cool_dev] holds for a null pointer only; with a handle and with an
    error pointer alike the function goes on, stores the pointer in the
    record and returns it. *)
Definition cpucore_cooling_register (pf : platform) (k : kernel)
    : (Z + Z) * kernel :=
  match kzalloc (kzalloc_ok pf) k with
  | (None, k) => (inl (- ENOMEM), k)
  | (Some cpucore_dev, k) =>
      match get_idr (cpucore_idr k) with
      | (inl ret, idr') =>
          let k := with_idr (fun _ => idr') k in
          (inl (- EINVAL), kfree cpucore_dev k)
      | (inr i, idr') =>
          let k := store cpucore_dev (set_id i) (with_idr (fun _ => idr') k) in
          let k := store cpucore_dev
                     (set_max_cpu_core_num (num_possible_cpus pf)) k in
          let dev_name :=
            snprintf_dev_name (THERMAL_NAME_LENGTH pf)
              (id (load cpucore_dev k)) in
          match thermal_of_cooling_device_register (thermal_register pf)
                  dev_name cpucore_dev k with
          | (cdev_null, k) =>
              let k := with_idr
                         (fun idr => release_idr idr (id (load cpucore_dev k)))
                         k in
              (inl (- EINVAL), kfree cpucore_dev k)
          | (cdev_handle cool_dev, k) =>
              let k := store cpucore_dev (set_cool_dev (Some cool_dev)) k in
              let k := store cpucore_dev (set_cpucore_state 0) k in
              (inr cool_dev, k)
          | (cdev_err_ptr e, k) =>
              let k := store cpucore_dev (set_cool_dev (Some (ERR_PTR e))) k in
              let k := store cpucore_dev (set_cpucore_state 0) k in
              (inl e, k)
          end
      end
  end.

(** [cpucore_cooling_unregister]; [cdev] is [None] for a null pointer.  The
    handle is one that registration returned, so [cdev->devdata] points to a
    live record. *)
Definition cpucore_cooling_unregister (cdev : option Z) (k : kernel)
    : kernel :=
  match cdev with
  | None => k
  | Some h =>
      match thermal_cdevs k !! h with
      | None => k
      | Some c =>
          let cpucore_dev := cdev_devdata c in
          let k' := thermal_cooling_device_unregister
                      (cool_dev (load cpucore_dev k)) k in
          let k' := with_idr
                      (fun idr => release_idr idr (id (load cpucore_dev k'))) k' in
          kfree cpucore_dev k'
      end
  end.

(** The record a successful registration leaves behind. *)
Definition fresh_device (i : Z) (h : Z) (N : Z) : cpucore_cooling_device :=
  mk_cpucore_cooling_device i (Some h) 0 N false.

Definition fresh_world (i : Z) (h : Z) (N : Z) : world :=
  mk_world (fresh_device i h N) [].

Definition empty_kernel : kernel := mk_kernel ∅ ∅ ∅.

(** ** The largest declared bound *)

Definition LONG_MAX : Z := 2 ^ 63 - 1.

(** The bounds declared by the instances bound to the zone for this device,
    in the order of their trips. *)
Definition bound_uppers (tz : thermal_zone_device) : list Z :=
  omap (fun i => upper <$> get_thermal_instance tz i) (seqZ 0 (trips tz)).

(** Following the spec's words: the largest upper bound declared by a bound
    trip instance, and -1, for no bound, when none is found. *)
Definition largest_upper_bound (tz : thermal_zone_device) : Z :=
  match bound_uppers tz with
  | [] => -1
  | u :: us => foldr Z.max u us
  end.

(** ** Sample inputs *)

(** A sample value for the stop flag: bit 31 of the state word. *)
Definition stop_bit_31 : Z := Z.shiftl 1 31.

(** A zone whose hot trip is asserting, with no instance bound. *)
Definition tz_hot : thermal_zone_device :=
  mk_thermal_zone_device true 0 (fun _ => None).

(** A zone whose hot trip has cleared. *)
Definition tz_clear : thermal_zone_device :=
  mk_thermal_zone_device false 0 (fun _ => None).

(** A zone with three trips; the device is bound at trip 0 with upper bound
    2 and at trip 1 with upper bound 5. *)
Definition tz_bound : thermal_zone_device :=
  mk_thermal_zone_device true 3
    (fun i => if i =? 0 then Some (mk_thermal_instance 2)
              else if i =? 1 then Some (mk_thermal_instance 5)
              else None).

(** An eight-core device at level 3, running and stopped. *)
Definition running_at_3 : world :=
  mk_world (mk_cpucore_cooling_device 0 (Some 0) 3 8 false) [].
Definition stopped_at_3 : world :=
  mk_world (mk_cpucore_cooling_device 0 (Some 0) 3 8 true) [].

(** A zone whose hot trip is asserting and that binds the device at trip 0
    with upper bound 2. *)
Definition tz_upper_2 : thermal_zone_device :=
  mk_thermal_zone_device true 1
    (fun i => if i =? 0 then Some (mk_thermal_instance 2) else None).

(** A kernel in which one device is registered. *)
Definition kernel_one_device : kernel :=
  snd (cpucore_cooling_register (mk_platform true 8 thermal_register_succeeds 20) empty_kernel).

(** A kernel in which two devices are registered. *)
Definition kernel_two_devices : kernel :=
  snd (cpucore_cooling_register (mk_platform true 8 thermal_register_succeeds 20) kernel_one_device).

(** * Properties *)

(** ** Unsigned arithmetic *)

Lemma to_ulong_small (z : Z) : 0 <= z <= ULONG_MAX -> to_ulong z = z.
Proof.
  unfold to_ulong, ULONG_MAX, BITS_PER_LONG. intros Hz.
  apply Z.mod_small. lia.
Qed.

Lemma to_ulong_range (z : Z) : 0 <= to_ulong z <= ULONG_MAX.
Proof.
  unfold to_ulong, ULONG_MAX, BITS_PER_LONG.
  pose proof (Z.mod_pos_bound z (2 ^ 64) ltac:(lia)). lia.
Qed.

(** The guard [max - state > 0], taken in [unsigned long], only asks the two
    values to differ. *)
Lemma guard_differ (m s : Z) :
  0 <= m <= ULONG_MAX -> 0 <= s <= ULONG_MAX ->
  (0 <? to_ulong (m - s)) = negb (m =? s).
Proof.
  unfold ULONG_MAX, BITS_PER_LONG. intros Hm Hs.
  destruct (Z.eqb_spec m s) as [->|Hne]; simpl.
  - rewrite Z.sub_diag. reflexivity.
  - apply Z.ltb_lt. unfold to_ulong, BITS_PER_LONG.
    destruct (Z_lt_le_dec m s).
    + replace (m - s) with (m - s + 2 ^ 64 - 1 * 2 ^ 64) by lia.
      rewrite Zminus_mod, Z_mod_mult, Z.sub_0_r, Z.mod_mod by lia.
      rewrite Z.mod_small; lia.
    + rewrite Z.mod_small; lia.
Qed.

Lemma guard_below (m s : Z) :
  0 <= s < m -> m <= ULONG_MAX -> (0 <? to_ulong (m - s)) = true.
Proof.
  intros Hs Hm. rewrite guard_differ by lia.
  destruct (Z.eqb_spec m s); [lia | reflexivity].
Qed.

Lemma guard_equal (m : Z) : (0 <? to_ulong (m - m)) = false.
Proof. rewrite Z.sub_diag. reflexivity. Qed.

Section CoolingProperties.

Variable CPU_STOP : Z.
Variable upper_type : upper_decl.

Local Abbreviation set_cur_state := (cpucore_set_cur_state CPU_STOP).
Local Abbreviation notify_state := (cpucore_notify_state CPU_STOP upper_type).

Ltac cb_unfold :=
  unfold exec, eval, cpucore_notify_state, cpucore_power2state,
    cpucore_state2power, cpucore_get_requested_power, cpucore_set_cur_state,
    cpucore_get_cur_state, cpucore_get_max_state, mbind, cb_mbind, cb_bind,
    mret, cb_mret, cb_ret, get_devdata, put_devdata, cpufreq_set_max_cpu_num
    in *;
  simpl in *.

(** ** [cpucore_set_cur_state], case by case *)

Lemma set_cur_state_stopped (state : Z) (w : world) :
  stop_flag (devdata w) = true -> set_cur_state state w = (0, w).
Proof. intros Hs. cb_unfold. rewrite Hs. reflexivity. Qed.

Lemma set_cur_state_plain (state : Z) (w : world) :
  stop_flag (devdata w) = false ->
  (Z.land state CPU_STOP =? CPU_STOP) = false ->
  set_cur_state state w =
    if 0 <? to_ulong (max_cpu_core_num (devdata w) - state)
    then (0, mk_world (set_cpucore_state state (devdata w))
               (to_int (to_ulong (max_cpu_core_num (devdata w) - state))
                  :: cpufreq_calls w))
    else (0, w).
Proof.
  intros Hs Hf. destruct w as [d calls]. cb_unfold. rewrite Hs, Hf. simpl.
  destruct (0 <? _); reflexivity.
Qed.

Lemma set_cur_state_flagged (state : Z) (w : world) :
  stop_flag (devdata w) = false ->
  (Z.land state CPU_STOP =? CPU_STOP) = true ->
  set_cur_state state w =
    let level := Z.land state (Z.lnot CPU_STOP) in
    let d := set_stop_flag true (devdata w) in
    if 0 <? to_ulong (max_cpu_core_num (devdata w) - level)
    then (0, mk_world (set_cpucore_state level d)
               (to_int (to_ulong (max_cpu_core_num (devdata w) - level))
                  :: cpufreq_calls w))
    else (0, mk_world d (cpufreq_calls w)).
Proof.
  intros Hs Hf. destruct w as [d calls]. cb_unfold. rewrite Hs, Hf. simpl.
  destruct (0 <? _); reflexivity.
Qed.

(** On a stopped device a run of requests changes nothing. *)
Lemma set_cur_states_stopped (states : list Z) (w : world) :
  stop_flag (devdata w) = true ->
  fold_left (fun w state => exec (set_cur_state state) w) states w = w.
Proof.
  intros Hs. induction states as [|state states IH]; simpl; [reflexivity|].
  unfold exec at 2. rewrite set_cur_state_stopped by exact Hs. exact IH.
Qed.

(** Every callback returns 0. *)
Lemma set_cur_state_returns_0 (state : Z) (w : world) :
  eval (set_cur_state state) w = 0.
Proof.
  destruct (stop_flag (devdata w)) eqn:Hs.
  - unfold eval. rewrite set_cur_state_stopped by exact Hs. reflexivity.
  - destruct (Z.land state CPU_STOP =? CPU_STOP) eqn:Hf; unfold eval.
    + rewrite set_cur_state_flagged by assumption. simpl.
      destruct (0 <? _); reflexivity.
    + rewrite set_cur_state_plain by assumption.
      destruct (0 <? _); reflexivity.
Qed.

Lemma notify_state_returns_0 (tz : thermal_zone_device)
    (type : thermal_trip_type) (w : world) :
  eval (notify_state tz type) w = 0.
Proof.
  unfold eval, cpucore_notify_state.
  destruct type; try reflexivity.
  destruct (enter_hot tz); unfold mbind, cb_mbind, cb_bind;
    repeat match goal with |- context [let (_, _) := ?m in _] =>
      destruct m end; reflexivity.
Qed.

(** A notification is the call of [cpucore_set_cur_state] it ends with. *)
Lemma notify_state_hot_clear (tz : thermal_zone_device) (w : world) :
  enter_hot tz = false ->
  notify_state tz THERMAL_TRIP_HOT w = set_cur_state 0 w.
Proof.
  intros Hh. unfold cpucore_notify_state. rewrite Hh.
  pose proof (set_cur_state_returns_0 0 w) as Hr. unfold eval in Hr.
  unfold mbind, cb_mbind, cb_bind.
  destruct (set_cur_state 0 w) as [r w']. simpl in Hr. subst r. reflexivity.
Qed.

Lemma notify_state_hot_enter (tz : thermal_zone_device) (w : world) :
  enter_hot tz = true ->
  notify_state tz THERMAL_TRIP_HOT w =
    let upper := scan_upper upper_type tz in
    let cur_state := to_ulong (to_ulong (cpucore_state (devdata w)) + 1) in
    set_cur_state
      (if negb (upper =? -1) && (to_ulong upper <? cur_state)
       then to_ulong upper else cur_state) w.
Proof.
  intros Hh. unfold cpucore_notify_state. rewrite Hh. simpl.
  match goal with |- _ = set_cur_state ?s0 w => set (s := s0) end.
  pose proof (set_cur_state_returns_0 s w) as Hr. unfold eval in Hr.
  unfold mbind, cb_mbind, cb_bind, cpucore_get_cur_state, get_devdata,
    mret, cb_mret, cb_ret. simpl. fold s.
  destruct (set_cur_state s w) as [r w']. simpl in Hr. subst r. reflexivity.
Qed.

Lemma notify_state_other (tz : thermal_zone_device)
    (type : thermal_trip_type) (w : world) :
  type <> THERMAL_TRIP_HOT -> notify_state tz type w = (0, w).
Proof. intros Hne. destruct type; try reflexivity. congruence. Qed.

Lemma notify_state_stopped (tz : thermal_zone_device)
    (type : thermal_trip_type) (w : world) :
  stop_flag (devdata w) = true -> notify_state tz type w = (0, w).
Proof.
  intros Hs. destruct type; try reflexivity.
  destruct (enter_hot tz) eqn:Hh.
  - rewrite notify_state_hot_enter by exact Hh. simpl.
    apply set_cur_state_stopped, Hs.
  - rewrite notify_state_hot_clear by exact Hh.
    apply set_cur_state_stopped, Hs.
Qed.

(** ** Requests at or above the maximum *)

(** X6: a request equal to the maximum, without the stop flag, is dropped:
    the record and the actuator are left as they are, and 0 is returned. *)
Lemma set_cur_state_at_max (state : Z) (w : world) :
  (Z.land state CPU_STOP =? CPU_STOP) = false ->
  state = max_cpu_core_num (devdata w) ->
  set_cur_state state w = (0, w).
Proof.
  intros Hf ->. destruct (stop_flag (devdata w)) eqn:Hs.
  - apply set_cur_state_stopped, Hs.
  - rewrite set_cur_state_plain by assumption.
    rewrite guard_equal. reflexivity.
Qed.

(** X7: a request above the maximum passes the guard: the difference wraps
    around in [unsigned long] and is positive.  On a running record the
    level is committed, above the maximum, and the actuator is called with
    the wrapped difference read as an [int]. *)
Lemma set_cur_state_above_max (state : Z) (w : world) :
  stop_flag (devdata w) = false ->
  (Z.land state CPU_STOP =? CPU_STOP) = false ->
  0 <= max_cpu_core_num (devdata w) < state ->
  state <= ULONG_MAX ->
  set_cur_state state w =
    (0, mk_world (set_cpucore_state state (devdata w))
          (to_int (to_ulong (max_cpu_core_num (devdata w) - state))
             :: cpufreq_calls w)).
Proof.
  intros Hs Hf Hm Hu. rewrite set_cur_state_plain by assumption.
  rewrite guard_differ by lia.
  destruct (Z.eqb_spec (max_cpu_core_num (devdata w)) state); [lia|].
  reflexivity.
Qed.

(** ** The stop latch *)

(** C2 (as amended): once the stop latch of a record is set, a call of
    [cpucore_set_cur_state] changes nothing, and neither does a notification,
    whatever the trip type and the zone: the notification commits through
    [cpucore_set_cur_state] and meets the same latch. *)
Theorem stopped_device_is_frozen (w : world) :
  stop_flag (devdata w) = true ->
  (forall state, set_cur_state state w = (0, w)) /\
  (forall tz type, notify_state tz type w = (0, w)).
Proof.
  intros Hs. split.
  - intros state. apply set_cur_state_stopped, Hs.
  - intros tz type. apply notify_state_stopped, Hs.
Qed.

(** C3 (as amended): on a record whose stop latch is not set and that
    controls at least one core, one notification of a hot trip clearing sets
    the level to 0, whatever it was before. *)
Theorem notify_hot_clear_resets (tz : thermal_zone_device) (w : world) :
  enter_hot tz = false ->
  stop_flag (devdata w) = false ->
  0 < max_cpu_core_num (devdata w) <= ULONG_MAX ->
  let w' := exec (notify_state tz THERMAL_TRIP_HOT) w in
  cpucore_state (devdata w') = 0 /\ eval cpucore_get_cur_state w' = (0, 0).
Proof.
  intros Hh Hs Hm. unfold exec. rewrite notify_state_hot_clear by exact Hh.
  assert (Hg : (0 <? to_ulong (max_cpu_core_num (devdata w) - 0)) = true)
    by (apply guard_below; lia).
  destruct (Z.land 0 CPU_STOP =? CPU_STOP) eqn:Hf.
  - rewrite set_cur_state_flagged by assumption.
    rewrite Z.land_0_l. simpl. rewrite Hg. simpl. split; reflexivity.
  - rewrite set_cur_state_plain by assumption.
    rewrite Hg. simpl. split; reflexivity.
Qed.

(** C5: a request that carries the stop flag, on a record not yet stopped and
    with a flag-stripped level below the maximum, sets the latch and commits
    the stripped level; from then on every call of [cpucore_set_cur_state]
    leaves the world, hence the reported level, as it is. *)
Theorem stop_request_latches (arg : Z) (w : world) :
  stop_flag (devdata w) = false ->
  Z.land arg CPU_STOP = CPU_STOP ->
  0 <= Z.land arg (Z.lnot CPU_STOP) < max_cpu_core_num (devdata w) ->
  max_cpu_core_num (devdata w) <= ULONG_MAX ->
  let w' := exec (set_cur_state arg) w in
  stop_flag (devdata w') = true /\
  eval cpucore_get_cur_state w' = (0, Z.land arg (Z.lnot CPU_STOP)) /\
  (forall state, set_cur_state state w' = (0, w')) /\
  (forall states,
     eval cpucore_get_cur_state
       (fold_left (fun w state => exec (set_cur_state state) w) states w')
     = eval cpucore_get_cur_state w').
Proof.
  intros Hs Hf Hl Hm w'.
  assert (Hw : w' = mk_world
            (set_cpucore_state (Z.land arg (Z.lnot CPU_STOP))
               (set_stop_flag true (devdata w)))
            (to_int (to_ulong (max_cpu_core_num (devdata w)
                               - Z.land arg (Z.lnot CPU_STOP)))
               :: cpufreq_calls w)).
  { subst w'. unfold exec.
    rewrite set_cur_state_flagged by (try apply Z.eqb_eq; assumption).
    simpl. rewrite guard_below by lia. reflexivity. }
  assert (Hstop : stop_flag (devdata w') = true) by (rewrite Hw; reflexivity).
  split; [exact Hstop|]. split.
  - rewrite Hw. unfold eval. cb_unfold.
    rewrite to_ulong_small by lia. reflexivity.
  - split.
    + intros state. apply set_cur_state_stopped, Hstop.
    + intros states. rewrite set_cur_states_stopped by exact Hstop.
      reflexivity.
Qed.

(** C10: a request that carries the stop flag and whose flag-stripped level
    equals the maximum, on a record not yet stopped, sets the latch although
    the level is rejected: the level stays as it was and the actuator is not
    called. *)
Theorem stop_request_at_max_latches_only (arg : Z) (w : world) :
  stop_flag (devdata w) = false ->
  Z.land arg CPU_STOP = CPU_STOP ->
  Z.land arg (Z.lnot CPU_STOP) = max_cpu_core_num (devdata w) ->
  let w' := exec (set_cur_state arg) w in
  stop_flag (devdata w') = true /\
  cpucore_state (devdata w') = cpucore_state (devdata w) /\
  cpufreq_calls w' = cpufreq_calls w.
Proof.
  intros Hs Hf Hl. unfold exec.
  rewrite set_cur_state_flagged by (try apply Z.eqb_eq; assumption).
  simpl. rewrite Hl, guard_equal. simpl. repeat split; reflexivity.
Qed.

Lemma run_op_keeps_stop (o : cooling_op) (w : world) :
  stop_flag (devdata w) = true ->
  stop_flag (devdata (run_op CPU_STOP upper_type o w)) = true.
Proof.
  intros Hs. destruct o; simpl; try exact Hs.
  - unfold exec. rewrite set_cur_state_stopped by exact Hs. exact Hs.
  - unfold exec. rewrite notify_state_stopped by exact Hs. exact Hs.
Qed.

Lemma run_ops_keep_stop (os : list cooling_op) (w : world) :
  stop_flag (devdata w) = true ->
  stop_flag (devdata (run_ops CPU_STOP upper_type os w)) = true.
Proof.
  revert w. induction os as [|o os IH]; intros w Hs; simpl.
  - exact Hs.
  - apply IH, run_op_keeps_stop, Hs.
Qed.

(** C8: the stop latch is monotonic.  Every operation on a record leaves the
    latch as it was or takes it from false to true; none takes it back to
    false. *)
Theorem stop_flag_monotonic (o : cooling_op) (w : world) :
  let w' := run_op CPU_STOP upper_type o w in
  stop_flag (devdata w') = stop_flag (devdata w) \/
  (stop_flag (devdata w) = false /\ stop_flag (devdata w') = true).
Proof.
  intros w'. destruct (stop_flag (devdata w)) eqn:Hs.
  - left. apply run_op_keeps_stop, Hs.
  - destruct (stop_flag (devdata w')); [right; split; reflexivity | left; reflexivity].
Qed.

(** ** The ratchet *)

Lemma notify_times_invariant (i h N : Z) (tz : thermal_zone_device) (k : nat) :
  0 < N <= ULONG_MAX ->
  enter_hot tz = true ->
  scan_upper upper_type tz = -1 ->
  let w := notify_times CPU_STOP upper_type tz k (fresh_world i h N) in
  max_cpu_core_num (devdata w) = N /\
  (stop_flag (devdata w) = false ->
   cpucore_state (devdata w) = Z.min (Z.of_nat k) (N - 1)).
Proof.
  intros HN Hh Hu. induction k as [|k IH].
  - simpl. split; [reflexivity | intros _; lia].
  - cbn zeta in *. cbn [notify_times].
    set (w := notify_times CPU_STOP upper_type tz k (fresh_world i h N)) in *.
    destruct IH as [Hmax IH].
    destruct (stop_flag (devdata w)) eqn:Hs.
    + unfold exec. rewrite notify_state_stopped by exact Hs. simpl.
      split; [exact Hmax | congruence].
    + specialize (IH eq_refl). unfold exec.
      rewrite notify_state_hot_enter by exact Hh. rewrite Hu. simpl.
      rewrite IH.
      rewrite (to_ulong_small (Z.min (Z.of_nat k) (N - 1))) by lia.
      rewrite to_ulong_small by lia.
      set (s := Z.min (Z.of_nat k) (N - 1) + 1).
      destruct (Z.land s CPU_STOP =? CPU_STOP) eqn:Hf.
      * rewrite set_cur_state_flagged by assumption. simpl.
        destruct (0 <? _); simpl; (split; [exact Hmax | congruence]).
      * rewrite set_cur_state_plain by assumption.
        rewrite Hmax, guard_differ by (subst s; lia).
        destruct (Z.eqb_spec N s) as [He|Hne]; simpl.
        -- split; [exact Hmax|]. intros _. rewrite IH. subst s. lia.
        -- split; [exact Hmax|]. intros _. subst s. lia.
Qed.

(** C4: from a freshly registered device with maximum [N], after [k]
    notifications of a hot trip asserting, with no upper bound in effect and
    the stop latch never set, the reported level is [min (k, N - 1)]; it
    stays below [N]. *)
Theorem notify_hot_ratchet (i h N : Z) (tz : thermal_zone_device) (k : nat) :
  0 < N <= ULONG_MAX ->
  enter_hot tz = true ->
  scan_upper upper_type tz = -1 ->
  let w := notify_times CPU_STOP upper_type tz k (fresh_world i h N) in
  stop_flag (devdata w) = false ->
  eval cpucore_get_cur_state w = (0, Z.min (Z.of_nat k) (N - 1)) /\
  cpucore_state (devdata w) < N.
Proof.
  intros HN Hh Hu w Hs.
  destruct (notify_times_invariant i h N tz k HN Hh Hu) as [_ Hst].
  fold w in Hst. specialize (Hst Hs).
  split.
  - unfold eval. cb_unfold. rewrite Hst.
    rewrite to_ulong_small by lia. reflexivity.
  - rewrite Hst. lia.
Qed.

End CoolingProperties.

(** ** The scan for the upper bound *)

Lemma foldr_max_swap (l : list Z) (a x : Z) :
  foldr Z.max (Z.max a x) l = Z.max x (foldr Z.max a l).
Proof. induction l as [|y l IH]; simpl; [|rewrite IH]; lia. Qed.

Lemma fold_left_max_foldr (l : list Z) (a : Z) :
  fold_left Z.max l a = foldr Z.max a l.
Proof.
  revert a. induction l as [|x l IH]; intros a; simpl; [reflexivity|].
  rewrite IH. apply foldr_max_swap.
Qed.

Lemma foldr_max_range (lo hi : Z) (l : list Z) (a : Z) :
  lo <= a <= hi -> (forall u, u ∈ l -> lo <= u <= hi) ->
  lo <= foldr Z.max a l <= hi.
Proof.
  intros Ha. induction l as [|x l IH]; intros Hl; simpl; [exact Ha|].
  pose proof (Hl x ltac:(left)) as Hx.
  assert (lo <= foldr Z.max a l <= hi)
    by (apply IH; intros u Hu; apply Hl; right; exact Hu).
  lia.
Qed.

(** With a signed bound the scan is a running maximum that starts at -1. *)
Lemma scan_upper_long_fold (tz : thermal_zone_device) :
  scan_upper upper_long tz = fold_left Z.max (bound_uppers tz) (-1).
Proof.
  unfold scan_upper, bound_uppers. generalize (-1). generalize (seqZ 0 (trips tz)).
  induction l as [|i l IH]; intros acc; simpl; [reflexivity|].
  rewrite IH. unfold scan_trip, instance_upper_gt.
  destruct (get_thermal_instance tz i) as [ins|]; simpl; [|reflexivity].
  f_equal. destruct (Z.ltb_spec acc (upper ins)); lia.
Qed.

Lemma bound_uppers_range (tz : thermal_zone_device) (lo hi : Z) :
  (forall i ins, get_thermal_instance tz i = Some ins ->
                 lo <= upper ins <= hi) ->
  forall u, u ∈ bound_uppers tz -> lo <= u <= hi.
Proof.
  intros Hb u Hu. apply list_elem_of_omap in Hu as (i & _ & Hi).
  destruct (get_thermal_instance tz i) as [ins|] eqn:Hg; simpl in Hi;
    [|discriminate].
  injection Hi as <-. eapply Hb, Hg.
Qed.

Lemma largest_upper_bound_range (tz : thermal_zone_device) :
  (forall i ins, get_thermal_instance tz i = Some ins ->
                 -1 <= upper ins <= LONG_MAX) ->
  -1 <= largest_upper_bound tz <= LONG_MAX.
Proof.
  intros Hb. pose proof (bound_uppers_range tz _ _ Hb) as Hr.
  unfold largest_upper_bound. destruct (bound_uppers tz) as [|u us].
  - unfold LONG_MAX. lia.
  - apply foldr_max_range.
    + apply Hr. left.
    + intros v Hv. apply Hr. right. exact Hv.
Qed.

Lemma scan_upper_long_largest (tz : thermal_zone_device) :
  (forall i ins, get_thermal_instance tz i = Some ins ->
                 -1 <= upper ins <= LONG_MAX) ->
  scan_upper upper_long tz = largest_upper_bound tz.
Proof.
  intros Hb. pose proof (bound_uppers_range tz _ _ Hb) as Hr.
  rewrite scan_upper_long_fold. unfold largest_upper_bound.
  destruct (bound_uppers tz) as [|u us]; simpl; [reflexivity|].
  rewrite !fold_left_max_foldr. f_equal.
  pose proof (Hr u ltac:(left)). lia.
Qed.

(** X15: where the bound of an instance is compared as a signed [long], a
    hot trip asserting takes for [upper] the largest upper bound declared by
    an instance bound to the zone for this device, -1 when there is none;
    the current level is read and incremented by one; where a bound exists
    and the incremented level exceeds it, the level is clamped to the bound;
    the result is committed through [cpucore_set_cur_state]. *)
Theorem notify_hot_enter_clamps (CPU_STOP : Z) (tz : thermal_zone_device)
    (w : world) :
  enter_hot tz = true ->
  (forall i ins, get_thermal_instance tz i = Some ins ->
                 -1 <= upper ins <= LONG_MAX) ->
  0 <= cpucore_state (devdata w) < ULONG_MAX ->
  let upper := largest_upper_bound tz in
  let incremented := cpucore_state (devdata w) + 1 in
  scan_upper upper_long tz = upper /\
  cpucore_notify_state CPU_STOP upper_long tz THERMAL_TRIP_HOT w =
    cpucore_set_cur_state CPU_STOP
      (if upper =? -1 then incremented else Z.min incremented upper) w.
Proof.
  intros Hh Hb Hc upper0 incremented.
  pose proof (scan_upper_long_largest tz Hb) as Hscan.
  pose proof (largest_upper_bound_range tz Hb) as Hr. fold upper0 in Hr.
  split; [exact Hscan|].
  rewrite notify_state_hot_enter by exact Hh. cbn zeta.
  rewrite Hscan. fold upper0.
  rewrite (to_ulong_small (cpucore_state (devdata w))) by lia.
  rewrite (to_ulong_small (cpucore_state (devdata w) + 1)) by lia.
  fold incremented.
  destruct (Z.eqb_spec upper0 (-1)) as [He|Hne]; simpl; [reflexivity|].
  rewrite (to_ulong_small upper0)
    by (unfold LONG_MAX, ULONG_MAX, BITS_PER_LONG in *; lia).
  f_equal. destruct (Z.ltb_spec upper0 incremented); lia.
Qed.

(** X14: were [thermal_instance.upper] an [unsigned long], the comparison
    with the local [upper = -1] would convert -1 to [ULONG_MAX]; no bound
    exceeds it and the scan would leave [upper] at -1. *)
Lemma scan_upper_ulong_unbounded (tz : thermal_zone_device) :
  (forall i ins, get_thermal_instance tz i = Some ins ->
                 0 <= upper ins <= ULONG_MAX) ->
  scan_upper upper_ulong tz = -1.
Proof.
  intros Hb. unfold scan_upper. generalize (seqZ 0 (trips tz)).
  induction l as [|i l IH]; simpl; [reflexivity|].
  replace (scan_trip upper_ulong tz (-1) i) with (-1); [exact IH|].
  unfold scan_trip, instance_upper_gt.
  destruct (get_thermal_instance tz i) as [ins|] eqn:Hg; [|reflexivity].
  specialize (Hb i ins Hg).
  destruct (Z.ltb_spec (to_ulong (-1)) (upper ins)) as [Hlt|]; [|reflexivity].
  change (to_ulong (-1)) with ULONG_MAX in Hlt. lia.
Qed.

(** ** The identifier allocator *)

Lemma first_free_spec (fuel : nat) (n : Z) (used : gset Z) :
  (size used <= fuel)%nat ->
  (n <= first_free fuel n used) /\
  (first_free fuel n used ∉ used) /\
  (forall m, n <= m < first_free fuel n used -> m ∈ used).
Proof.
  revert n used. induction fuel as [|fuel IH]; intros n used Hsz; simpl.
  - assert (used = ∅) as ->
      by (apply leibniz_equiv, size_empty_inv; lia).
    repeat split; [lia | apply not_elem_of_empty | intros m Hm; lia].
  - destruct (decide (n ∈ used)) as [Hin|Hnin].
    + assert (Hsz' : (size (used ∖ {[n]}) <= fuel)%nat).
      { rewrite size_difference by (apply singleton_subseteq_l, Hin).
        rewrite size_singleton. lia. }
      destruct (IH (n + 1) (used ∖ {[n]}) Hsz') as (Hle & Hfree & Hbelow).
      repeat split.
      * lia.
      * intros Hr. apply Hfree, elem_of_difference.
        split; [exact Hr | rewrite elem_of_singleton; lia].
      * intros m Hm. destruct (decide (m = n)) as [->|Hne]; [exact Hin|].
        specialize (Hbelow m ltac:(lia)).
        apply elem_of_difference in Hbelow as [Hm' _]. exact Hm'.
    + repeat split; [lia | exact Hnin | intros m Hm; lia].
Qed.

Lemma get_idr_ok (idr idr' : gset Z) (i : Z) :
  get_idr idr = (inr i, idr') ->
  i = first_free (size idr) 0 idr /\ 0 <= i <= INT_MAX /\ idr' = {[i]} ∪ idr.
Proof.
  unfold get_idr, idr_alloc. intros H.
  pose proof (first_free_spec (size idr) 0 idr ltac:(lia)) as (Hle & _ & _).
  destruct (Z.leb_spec (first_free (size idr) 0 idr) INT_MAX) as [Hm|Hm].
  - destruct (Z.ltb_spec (first_free (size idr) 0 idr) 0); [lia|].
    injection H as <- <-. repeat split; [exact Hle | exact Hm].
  - simpl in H. discriminate.
Qed.

Lemma get_idr_err (idr idr' : gset Z) (ret : Z) :
  get_idr idr = (inl ret, idr') -> ret = - ENOSPC /\ idr' = idr.
Proof.
  unfold get_idr, idr_alloc. intros H.
  pose proof (first_free_spec (size idr) 0 idr ltac:(lia)) as (Hle & _ & _).
  destruct (Z.leb_spec (first_free (size idr) 0 idr) INT_MAX) as [Hm|Hm].
  - destruct (Z.ltb_spec (first_free (size idr) 0 idr) 0); [lia|discriminate].
  - simpl in H. injection H as <- <-. split; reflexivity.
Qed.

Lemma elem_of_release_idr (s : gset Z) (j m : Z) :
  m ∈ release_idr s j <-> m ∈ s /\ m <> j.
Proof.
  unfold release_idr, idr_remove.
  rewrite elem_of_difference, elem_of_singleton. reflexivity.
Qed.

Lemma release_idr_fresh (s : gset Z) (i : Z) :
  i ∉ s -> release_idr ({[i]} ∪ s) i = s.
Proof.
  intros Hfree. apply set_eq. intros m.
  rewrite elem_of_release_idr, elem_of_union, elem_of_singleton.
  split; [intros [[->|Hm] Hne]; [congruence | exact Hm] |].
  intros Hm. split; [right; exact Hm | intros ->; exact (Hfree Hm)].
Qed.

(** C9: an id that [get_idr] hands out is the smallest non-negative integer
    not outstanding, and it becomes outstanding; [release_idr] removes an id
    from the outstanding set and leaves the others; hence allocating,
    releasing and allocating again, with nothing in between, yields the same
    id both times. *)
Theorem get_idr_smallest_free (idr idr' : gset Z) (i : Z) :
  get_idr idr = (inr i, idr') ->
  (0 <= i /\ (i ∉ idr) /\ (forall m, 0 <= m < i -> m ∈ idr)) /\
  idr' = {[i]} ∪ idr /\
  (forall s j, (j ∉ release_idr s j) /\
               (forall m, m <> j -> m ∈ release_idr s j <-> m ∈ s)) /\
  release_idr idr' i = idr /\
  get_idr (release_idr idr' i) = (inr i, idr').
Proof.
  intros H. pose proof H as H0.
  apply get_idr_ok in H as (Hi & Hrange & Hidr').
  pose proof (first_free_spec (size idr) 0 idr ltac:(lia)) as (_ & Hfree & Hbelow).
  rewrite <- Hi in Hfree, Hbelow.
  assert (Hrel : release_idr idr' i = idr).
  { subst idr'. apply release_idr_fresh, Hfree. }
  split; [repeat split; [lia | exact Hfree | exact Hbelow] |].
  split; [exact Hidr' |].
  split; [| split; [exact Hrel | rewrite Hrel; exact H0]].
  intros s j. split.
  - rewrite elem_of_release_idr. intros [_ Hne]. exact (Hne eq_refl).
  - intros m Hne. rewrite elem_of_release_idr. tauto.
Qed.

(** ** Registration *)

Lemma kmem_fresh (k : kernel) : kmem k !! fresh (dom (kmem k)) = None.
Proof. apply not_elem_of_dom, is_fresh. Qed.

Lemma cdevs_fresh (k : kernel) :
  thermal_cdevs k !! fresh (dom (thermal_cdevs k)) = None.
Proof. apply not_elem_of_dom, is_fresh. Qed.

(** What a successful registration leaves behind: a fresh handle bound to a
    fresh record that holds the new id, the handle, level 0, the number of
    possible CPUs as maximum and an unset stop latch. *)
Lemma register_success (pf : platform) (k k' : kernel) (h : Z) :
  cpucore_cooling_register pf k = (inr h, k') ->
  let p := fresh (dom (kmem k)) in
  let i := first_free (size (cpucore_idr k)) 0 (cpucore_idr k) in
  h = fresh (dom (thermal_cdevs k)) /\
  k' = mk_kernel ({[i]} ∪ cpucore_idr k)
         (<[p := fresh_device i h (num_possible_cpus pf)]> (kmem k))
         (<[h := mk_thermal_cooling_device
                   (snprintf_dev_name (THERMAL_NAME_LENGTH pf) i) p]>
            (thermal_cdevs k)).
Proof.
  unfold cpucore_cooling_register, kzalloc.
  destruct (kzalloc_ok pf); [|discriminate].
  cbn [cpucore_idr kmem thermal_cdevs].
  destruct (get_idr (cpucore_idr k)) as [[ret|i] idr'] eqn:Hg; [discriminate|].
  apply get_idr_ok in Hg as (Hi & _ & ->).
  unfold thermal_of_cooling_device_register.
  destruct (thermal_register pf); [|discriminate|discriminate].
  destruct k as [idr mem cdevs]. unfold store, with_idr, load.
  cbn [cpucore_idr kmem thermal_cdevs] in *.
  intros [= <- <-]. cbn zeta. rewrite <- Hi.
  split; [reflexivity|].
  rewrite !alter_insert_eq. rewrite lookup_insert_eq. reflexivity.
Qed.

(** X10: removing a device right after its registration gives back the
    kernel state from before the registration: handle, id and record are all
    released. *)
Lemma unregister_register (pf : platform) (k k' : kernel) (h : Z) :
  cpucore_cooling_register pf k = (inr h, k') ->
  cpucore_cooling_unregister (Some h) k' = k.
Proof.
  intros Hreg. apply register_success in Hreg as [-> ->].
  pose proof (first_free_spec (size (cpucore_idr k)) 0 (cpucore_idr k)
                ltac:(lia)) as (_ & Hi & _).
  destruct k as [idr mem cdevs].
  unfold cpucore_cooling_unregister, thermal_cooling_device_unregister,
    kfree, with_idr, load.
  cbn [cpucore_idr kmem thermal_cdevs cdev_devdata] in *.
  rewrite !lookup_insert_eq. simpl. rewrite ?lookup_insert_eq. simpl.
  f_equal.
  - apply release_idr_fresh, Hi.
  - apply delete_insert_id, (kmem_fresh (mk_kernel idr mem cdevs)).
  - apply delete_insert_id, (cdevs_fresh (mk_kernel idr mem cdevs)).
Qed.

(** * Concrete runs *)

(** The first registration on an empty kernel. *)
Example register_first :
  cpucore_cooling_register (mk_platform true 8 thermal_register_succeeds 20) empty_kernel
  = (inr 0,
     mk_kernel {[0]} {[0 := fresh_device 0 0 8]}
       {[0 := mk_thermal_cooling_device "thermal-cpucore-0" 0]}).
Proof. vm_compute. reflexivity. Qed.

(** The scenario of the spec with eight cores: after registration the
    maximum is 8 and the level 0; three hot notifications bring the level to
    3, each calling the actuator (7, 6, then 5 cores); the hot trip clearing
    resets the level to 0; the request 7 is committed, for one active core;
    the request 8 is dropped. *)
Example eight_core_scenario :
  let w0 := fresh_world 0 0 8 in
  let w3 := notify_times stop_bit_31 upper_long tz_hot 3 w0 in
  let w4 := exec (cpucore_notify_state stop_bit_31 upper_long tz_clear
                    THERMAL_TRIP_HOT) w3 in
  let w5 := exec (cpucore_set_cur_state stop_bit_31 7) w4 in
  let w6 := exec (cpucore_set_cur_state stop_bit_31 8) w5 in
  eval cpucore_get_max_state w0 = (0, 8) /\
  eval cpucore_get_cur_state w0 = (0, 0) /\
  eval cpucore_get_cur_state w3 = (0, 3) /\
  cpufreq_calls w3 = [5; 6; 7] /\
  eval cpucore_get_cur_state w4 = (0, 0) /\
  eval cpucore_get_cur_state w5 = (0, 7) /\
  cpufreq_calls w5 = [1; 8; 5; 6; 7] /\
  w6 = w5.
Proof. vm_compute. repeat split; reflexivity. Qed.

(** C6 (the code departs from it): with [thermal_instance.upper] an [unsigned
    long], as the thermal core declares it, the scan of a zone that binds the
    device with upper bounds 2 and 5 leaves [upper] at -1, and a hot
    notification at level 5 commits 6, above both bounds, and calls the
    actuator for 2 cores. *)
Theorem notify_hot_enter_ignores_bound :
  scan_upper upper_ulong tz_bound = -1 /\
  cpucore_notify_state stop_bit_31 upper_ulong tz_bound THERMAL_TRIP_HOT
    (mk_world (mk_cpucore_cooling_device 0 (Some 0) 5 8 false) [])
  = (0, mk_world (mk_cpucore_cooling_device 0 (Some 0) 6 8 false) [2]).
Proof. split; vm_compute; reflexivity. Qed.

(** C7 (the code departs from it): a registration on the empty kernel that
    the framework refuses with [ERR_PTR (-ENOMEM)] returns that error
    pointer, and id 0 stays outstanding and the record stays allocated; the
    same registration refused with a null pointer is rolled back and returns
    [ERR_PTR (-EINVAL)]. *)
Theorem register_err_ptr_leaks :
  cpucore_cooling_register
    (mk_platform true 8 (thermal_register_err_ptr (- ENOMEM)) 20) empty_kernel
  = (inl (- ENOMEM),
     mk_kernel {[0]}
       {[0 := mk_cpucore_cooling_device 0 (Some (ERR_PTR (- ENOMEM))) 0 8
                false]}
       ∅) /\
  cpucore_cooling_register
    (mk_platform true 8 thermal_register_null 20) empty_kernel
  = (inl (- EINVAL), empty_kernel).
Proof. split; vm_compute; reflexivity. Qed.

(** C1 (the code departs from it): on a running eight-core device the
    request 9, above the maximum and without the stop flag, is committed: the
    level becomes 9 and the actuator is called with -1. *)
Theorem set_cur_state_above_max_commits :
  cpucore_set_cur_state stop_bit_31 9 (fresh_world 0 0 8)
  = (0, mk_world (mk_cpucore_cooling_device 0 (Some 0) 9 8 false) [-1]).
Proof. vm_compute. reflexivity. Qed.

(** C2, the claim as stated fails: on a stopped device a notification
    changes nothing, whether the hot trip asserts or clears, while the same
    notifications move the running device from 3 to 4 and to 0; and no
    stopped device has its level changed by any notification. *)
Lemma notify_state_blocked_by_latch :
  exec (cpucore_notify_state stop_bit_31 upper_long tz_hot THERMAL_TRIP_HOT)
       stopped_at_3 = stopped_at_3 /\
  exec (cpucore_notify_state stop_bit_31 upper_long tz_clear THERMAL_TRIP_HOT)
       stopped_at_3 = stopped_at_3 /\
  cpucore_state (devdata
    (exec (cpucore_notify_state stop_bit_31 upper_long tz_hot THERMAL_TRIP_HOT)
          running_at_3)) = 4 /\
  cpucore_state (devdata
    (exec (cpucore_notify_state stop_bit_31 upper_long tz_clear THERMAL_TRIP_HOT)
          running_at_3)) = 0 /\
  ~ (exists CPU_STOP upper_type tz type w,
       stop_flag (devdata w) = true /\
       cpucore_state (devdata
         (exec (cpucore_notify_state CPU_STOP upper_type tz type) w))
       <> cpucore_state (devdata w)).
Proof.
  split; [vm_compute; reflexivity|].
  split; [vm_compute; reflexivity|].
  split; [vm_compute; reflexivity|].
  split; [vm_compute; reflexivity|].
  intros (CPU_STOP & upper_type & tz & type & w & Hs & Hne).
  apply Hne. unfold exec. rewrite notify_state_stopped by exact Hs.
  reflexivity.
Qed.

(** The stopped eight-core device stays as it is. *)
Lemma stopped_device_is_frozen_witness :
  stop_flag (devdata stopped_at_3) = true /\
  (forall state,
     cpucore_set_cur_state stop_bit_31 state stopped_at_3
     = (0, stopped_at_3)) /\
  (forall tz type,
     cpucore_notify_state stop_bit_31 upper_long tz type stopped_at_3
     = (0, stopped_at_3)).
Proof.
  split; [reflexivity|].
  apply (stopped_device_is_frozen stop_bit_31 upper_long stopped_at_3).
  reflexivity.
Defined.

(** C3, the claim as stated fails: on the stopped device at level 3 a
    notification of the hot trip clearing leaves the level at 3. *)
Lemma notify_hot_clear_stopped_keeps_level :
  cpucore_state (devdata
    (exec (cpucore_notify_state stop_bit_31 upper_long tz_clear THERMAL_TRIP_HOT)
          stopped_at_3)) = 3 /\
  eval cpucore_get_cur_state
    (exec (cpucore_notify_state stop_bit_31 upper_long tz_clear THERMAL_TRIP_HOT)
          stopped_at_3) <> (0, 0).
Proof. split; vm_compute; [reflexivity | discriminate]. Qed.

(** The running device at level 3 is reset to 0. *)
Lemma notify_hot_clear_resets_witness :
  enter_hot tz_clear = false /\
  stop_flag (devdata running_at_3) = false /\
  cpucore_state (devdata
    (exec (cpucore_notify_state stop_bit_31 upper_long tz_clear THERMAL_TRIP_HOT)
          running_at_3)) = 0 /\
  eval cpucore_get_cur_state
    (exec (cpucore_notify_state stop_bit_31 upper_long tz_clear THERMAL_TRIP_HOT)
          running_at_3) = (0, 0).
Proof.
  split; [reflexivity|]. split; [reflexivity|].
  apply (notify_hot_clear_resets stop_bit_31 upper_long tz_clear running_at_3);
    [reflexivity | reflexivity | vm_compute; split; [reflexivity | discriminate]].
Defined.

(** Ten hot notifications on a fresh eight-core device: level 7. *)
Lemma notify_hot_ratchet_witness :
  eval cpucore_get_cur_state
    (notify_times stop_bit_31 upper_long tz_hot 10 (fresh_world 0 0 8))
  = (0, 7) /\
  cpucore_state (devdata
    (notify_times stop_bit_31 upper_long tz_hot 10 (fresh_world 0 0 8))) < 8.
Proof.
  apply (notify_hot_ratchet stop_bit_31 upper_long 0 0 8 tz_hot 10);
    [vm_compute; split; [reflexivity | discriminate]
    | reflexivity | reflexivity | reflexivity].
Defined.

(** The request [CPU_STOP | 2] on a fresh eight-core device. *)
Lemma stop_request_latches_witness :
  stop_flag (devdata
    (exec (cpucore_set_cur_state stop_bit_31 (Z.lor stop_bit_31 2))
          (fresh_world 0 0 8))) = true /\
  eval cpucore_get_cur_state
    (exec (cpucore_set_cur_state stop_bit_31 (Z.lor stop_bit_31 2))
          (fresh_world 0 0 8)) = (0, 2) /\
  (forall state,
     cpucore_set_cur_state stop_bit_31 state
       (exec (cpucore_set_cur_state stop_bit_31 (Z.lor stop_bit_31 2))
             (fresh_world 0 0 8))
     = (0, exec (cpucore_set_cur_state stop_bit_31 (Z.lor stop_bit_31 2))
                (fresh_world 0 0 8))) /\
  (forall states,
     eval cpucore_get_cur_state
       (fold_left
          (fun w state => exec (cpucore_set_cur_state stop_bit_31 state) w)
          states
          (exec (cpucore_set_cur_state stop_bit_31 (Z.lor stop_bit_31 2))
                (fresh_world 0 0 8)))
     = eval cpucore_get_cur_state
         (exec (cpucore_set_cur_state stop_bit_31 (Z.lor stop_bit_31 2))
               (fresh_world 0 0 8))).
Proof.
  apply (stop_request_latches stop_bit_31 (Z.lor stop_bit_31 2)
           (fresh_world 0 0 8));
    [reflexivity | reflexivity
    | vm_compute; split; [discriminate | reflexivity]
    | vm_compute; discriminate].
Defined.

(** The request [CPU_STOP | 8] on the running eight-core device at level
    3. *)
Lemma stop_request_at_max_latches_only_witness :
  stop_flag (devdata
    (exec (cpucore_set_cur_state stop_bit_31 (Z.lor stop_bit_31 8))
          running_at_3)) = true /\
  cpucore_state (devdata
    (exec (cpucore_set_cur_state stop_bit_31 (Z.lor stop_bit_31 8))
          running_at_3)) = 3 /\
  cpufreq_calls
    (exec (cpucore_set_cur_state stop_bit_31 (Z.lor stop_bit_31 8))
          running_at_3) = [].
Proof.
  apply (stop_request_at_max_latches_only stop_bit_31 (Z.lor stop_bit_31 8)
           running_at_3); reflexivity.
Defined.

(** With bounds 2 and 5 declared, a hot notification at level 5 commits 5,
    not 6. *)
Lemma notify_hot_enter_clamps_witness :
  scan_upper upper_long tz_bound = 5 /\
  cpucore_notify_state stop_bit_31 upper_long tz_bound THERMAL_TRIP_HOT
    (mk_world (mk_cpucore_cooling_device 0 (Some 0) 5 8 false) [])
  = cpucore_set_cur_state stop_bit_31 5
      (mk_world (mk_cpucore_cooling_device 0 (Some 0) 5 8 false) []).
Proof.
  apply (notify_hot_enter_clamps stop_bit_31 tz_bound
           (mk_world (mk_cpucore_cooling_device 0 (Some 0) 5 8 false) [])).
  - reflexivity.
  - intros i ins. simpl.
    destruct (i =? 0); [intros [= <-]; vm_compute; split; discriminate|].
    destruct (i =? 1); [intros [= <-]; vm_compute; split; discriminate|].
    discriminate.
  - vm_compute. split; [discriminate | reflexivity].
Defined.

(** With 0 and 2 outstanding the allocator hands out 1, and again after its
    release. *)
Lemma get_idr_smallest_free_witness :
  get_idr {[0; 2]} = (inr 1, {[1]} ∪ {[0; 2]}) /\
  release_idr ({[1]} ∪ {[0; 2]}) 1 = {[0; 2]} /\
  get_idr (release_idr ({[1]} ∪ {[0; 2]}) 1) = (inr 1, {[1]} ∪ {[0; 2]}).
Proof.
  split; [vm_compute; reflexivity|].
  apply (get_idr_smallest_free {[0; 2]} ({[1]} ∪ {[0; 2]}) 1).
  vm_compute. reflexivity.
Defined.

(** * Further properties of the control surface *)

Lemma to_int_small (z : Z) : - 2 ^ 31 <= z <= INT_MAX -> to_int z = z.
Proof.
  unfold to_int, INT_MAX. intros Hz.
  rewrite Z.mod_small by lia. lia.
Qed.

Lemma INT_MAX_le_ULONG_MAX : INT_MAX <= ULONG_MAX.
Proof. vm_compute. discriminate. Qed.

(** Stripping bits from a non-negative word gives a non-negative word that is
    not larger. *)
Lemma land_lnot_range (s c : Z) : 0 <= s -> 0 <= Z.land s (Z.lnot c) <= s.
Proof.
  intros Hs. rewrite <- Z.ldiff_land.
  assert (H0 : 0 <= Z.ldiff s c) by (apply Z.ldiff_nonneg; left; exact Hs).
  assert (H1 : 0 <= Z.land s c) by (apply Z.land_nonneg; left; exact Hs).
  assert (Hd : Z.land (Z.ldiff s c) (Z.land s c) = 0).
  { apply Z.bits_inj'. intros n Hn.
    rewrite Z.land_spec, Z.ldiff_spec, Z.land_spec, Z.bits_0.
    destruct (Z.testbit s n), (Z.testbit c n); reflexivity. }
  pose proof (Z.add_lor_land (Z.ldiff s c) (Z.land s c)) as Ha.
  rewrite Z.lor_ldiff_and, Hd in Ha. lia.
Qed.

Lemma requested_level_range (CPU_STOP state : Z) :
  0 <= state -> 0 <= requested_level CPU_STOP state <= state.
Proof.
  intros Hs. unfold requested_level.
  destruct (Z.land state CPU_STOP =? CPU_STOP);
    [apply land_lnot_range, Hs | lia].
Qed.

(** X1: on a running record a request for a level below the maximum is
    committed, with or without the stop flag: the level becomes the requested
    level (the state word without the flag), the latch is set exactly when
    the word carries the flag, and the actuator is called once, with the
    number of cores to keep, [max - level]. *)
Theorem set_cur_state_commits_below_max (CPU_STOP state : Z) (w : world) :
  stop_flag (devdata w) = false ->
  0 <= state ->
  requested_level CPU_STOP state < max_cpu_core_num (devdata w) ->
  max_cpu_core_num (devdata w) <= INT_MAX ->
  cpucore_set_cur_state CPU_STOP state w =
    (0, mk_world
          (set_cpucore_state (requested_level CPU_STOP state)
             (set_stop_flag (Z.land state CPU_STOP =? CPU_STOP) (devdata w)))
          ((max_cpu_core_num (devdata w) - requested_level CPU_STOP state)
             :: cpufreq_calls w)).
Proof.
  intros Hs Hs0 Hr Hm. pose proof INT_MAX_le_ULONG_MAX as Hlim.
  pose proof (requested_level_range CPU_STOP state Hs0) as Hl.
  unfold requested_level in *.
  destruct (Z.land state CPU_STOP =? CPU_STOP) eqn:Hf.
  - rewrite set_cur_state_flagged by assumption. cbn zeta.
    rewrite guard_below by lia.
    rewrite to_ulong_small by lia. rewrite to_int_small by lia. reflexivity.
  - rewrite set_cur_state_plain by assumption.
    rewrite guard_below by lia.
    rewrite to_ulong_small by lia. rewrite to_int_small by lia.
    destruct w as [[i c st m sf] calls]. simpl in *. subst sf. reflexivity.
Qed.

Lemma set_cur_state_commits_below_max_witness :
  cpucore_set_cur_state stop_bit_31 (Z.lor stop_bit_31 5) running_at_3 =
    (0, mk_world (mk_cpucore_cooling_device 0 (Some 0) 5 8 true) [3]).
Proof.
  apply (set_cur_state_commits_below_max stop_bit_31 (Z.lor stop_bit_31 5)
           running_at_3);
    [reflexivity | vm_compute; discriminate | vm_compute; reflexivity
    | vm_compute; discriminate].
Defined.

(** With a request that does not exceed the maximum, [cpucore_set_cur_state]
    keeps the level below the maximum and calls the actuator, if at all, with
    the cores to keep. *)
Lemma set_cur_state_bounded (CPU_STOP state : Z) (w : world) :
  0 <= cpucore_state (devdata w) < max_cpu_core_num (devdata w) ->
  max_cpu_core_num (devdata w) <= INT_MAX ->
  0 <= state ->
  requested_level CPU_STOP state <= max_cpu_core_num (devdata w) ->
  let w' := exec (cpucore_set_cur_state CPU_STOP state) w in
  max_cpu_core_num (devdata w') = max_cpu_core_num (devdata w) /\
  0 <= cpucore_state (devdata w') < max_cpu_core_num (devdata w) /\
  (cpufreq_calls w' = cpufreq_calls w \/
   cpufreq_calls w' =
     (max_cpu_core_num (devdata w) - cpucore_state (devdata w'))
       :: cpufreq_calls w).
Proof.
  intros Hc Hm Hr0 Hr. pose proof INT_MAX_le_ULONG_MAX as Hlim. unfold exec.
  pose proof (requested_level_range CPU_STOP state Hr0) as Hl.
  unfold requested_level in Hr, Hl.
  destruct (stop_flag (devdata w)) eqn:Hs.
  { rewrite set_cur_state_stopped by exact Hs. simpl.
    split; [reflexivity|]. split; [exact Hc | left; reflexivity]. }
  destruct (Z.land state CPU_STOP =? CPU_STOP) eqn:Hf.
  - rewrite set_cur_state_flagged by assumption. cbn zeta.
    set (level := Z.land state (Z.lnot CPU_STOP)) in *.
    rewrite guard_differ by lia.
    destruct (Z.eqb_spec (max_cpu_core_num (devdata w)) level); simpl.
    + split; [reflexivity|]. split; [exact Hc | left; reflexivity].
    + split; [reflexivity|]. split; [lia|]. right.
      rewrite to_ulong_small by lia. rewrite to_int_small by lia.
      reflexivity.
  - rewrite set_cur_state_plain by assumption.
    rewrite guard_differ by lia.
    destruct (Z.eqb_spec (max_cpu_core_num (devdata w)) state); simpl.
    + split; [reflexivity|]. split; [exact Hc | left; reflexivity].
    + split; [reflexivity|]. split; [lia|]. right.
      rewrite to_ulong_small by lia. rewrite to_int_small by lia.
      reflexivity.
Qed.

(** What a notification requests never exceeds the level plus one. *)
Lemma notify_state_bounded (CPU_STOP : Z) (upper_type : upper_decl)
    (tz : thermal_zone_device) (type : thermal_trip_type) (w : world) :
  0 <= cpucore_state (devdata w) < max_cpu_core_num (devdata w) ->
  max_cpu_core_num (devdata w) <= INT_MAX ->
  let w' := exec (cpucore_notify_state CPU_STOP upper_type tz type) w in
  max_cpu_core_num (devdata w') = max_cpu_core_num (devdata w) /\
  0 <= cpucore_state (devdata w') < max_cpu_core_num (devdata w) /\
  (cpufreq_calls w' = cpufreq_calls w \/
   cpufreq_calls w' =
     (max_cpu_core_num (devdata w) - cpucore_state (devdata w'))
       :: cpufreq_calls w).
Proof.
  intros Hc Hm. pose proof INT_MAX_le_ULONG_MAX as Hlim.
  destruct type;
    try (simpl; split; [reflexivity|]; split; [exact Hc | left; reflexivity]).
  destruct (enter_hot tz) eqn:Hh; unfold exec.
  - rewrite notify_state_hot_enter by exact Hh. cbn zeta.
    rewrite (to_ulong_small (cpucore_state (devdata w))) by lia.
    rewrite (to_ulong_small (cpucore_state (devdata w) + 1)) by lia.
    pose proof (to_ulong_range (scan_upper upper_type tz)) as Hu.
    match goal with |- context [cpucore_set_cur_state _ ?s0 w] =>
      assert (Hr : 0 <= s0 <= max_cpu_core_num (devdata w)) end.
    { destruct (negb _ && _) eqn:Hclamp; [|lia].
      apply andb_true_iff in Hclamp as [_ Hlt]. apply Z.ltb_lt in Hlt. lia. }
    apply set_cur_state_bounded; [exact Hc | exact Hm | lia |].
    match goal with |- requested_level _ ?s0 <= _ =>
      pose proof (requested_level_range CPU_STOP s0 ltac:(lia)) end. lia.
  - rewrite notify_state_hot_clear by exact Hh.
    apply set_cur_state_bounded; [exact Hc | exact Hm | lia |].
    pose proof (requested_level_range CPU_STOP 0 ltac:(lia)). lia.
Qed.

Lemma run_op_bounded (CPU_STOP : Z) (upper_type : upper_decl)
    (o : cooling_op) (w : world) :
  0 <= cpucore_state (devdata w) < max_cpu_core_num (devdata w) ->
  max_cpu_core_num (devdata w) <= INT_MAX ->
  (forall state, o = op_set_cur_state state ->
     0 <= state /\
     requested_level CPU_STOP state <= max_cpu_core_num (devdata w)) ->
  let w' := run_op CPU_STOP upper_type o w in
  max_cpu_core_num (devdata w') = max_cpu_core_num (devdata w) /\
  0 <= cpucore_state (devdata w') < max_cpu_core_num (devdata w) /\
  (cpufreq_calls w' = cpufreq_calls w \/
   cpufreq_calls w' =
     (max_cpu_core_num (devdata w) - cpucore_state (devdata w'))
       :: cpufreq_calls w).
Proof.
  intros Hc Hm Hreq.
  destruct o;
    try (simpl; split; [reflexivity|]; split; [exact Hc | left; reflexivity]).
  - destruct (Hreq state eq_refl) as [Hr0 Hr].
    apply set_cur_state_bounded; assumption.
  - apply notify_state_bounded; assumption.
Qed.

(** X2: the level stays below the maximum, and the actuator is never asked
    for less than one core or more than the maximum, along every sequence of
    operations in which no direct request asks for a level above the maximum
    (the level of a request being its state word without the stop flag);
    notifications of every kind are included. *)
Theorem run_ops_keep_level_below_max (CPU_STOP : Z) (upper_type : upper_decl)
    (os : list cooling_op) (w : world) :
  0 <= cpucore_state (devdata w) < max_cpu_core_num (devdata w) ->
  max_cpu_core_num (devdata w) <= INT_MAX ->
  (forall state, op_set_cur_state state ∈ os ->
     0 <= state /\
     requested_level CPU_STOP state <= max_cpu_core_num (devdata w)) ->
  let w' := run_ops CPU_STOP upper_type os w in
  max_cpu_core_num (devdata w') = max_cpu_core_num (devdata w) /\
  0 <= cpucore_state (devdata w') < max_cpu_core_num (devdata w) /\
  (forall n, n ∈ cpufreq_calls w' ->
             n ∈ cpufreq_calls w \/ 1 <= n <= max_cpu_core_num (devdata w)).
Proof.
  revert w. induction os as [|o os IH]; intros w Hc Hm Hreq; cbn zeta.
  - simpl. split; [reflexivity|]. split; [exact Hc|]. intros n Hn. left.
    exact Hn.
  - cbn [run_ops fold_left].
    destruct (run_op_bounded CPU_STOP upper_type o w Hc Hm) as (Hmax & Hlev & Hcalls).
    { intros state ->. apply Hreq. left. }
    set (w1 := run_op CPU_STOP upper_type o w) in *.
    destruct (IH w1) as (Hmax' & Hlev' & Hcalls').
    { rewrite Hmax. exact Hlev. }
    { rewrite Hmax. exact Hm. }
    { intros state Hin. rewrite Hmax. apply Hreq. right. exact Hin. }
    fold (run_ops CPU_STOP upper_type os w1).
    rewrite Hmax in Hmax', Hlev', Hcalls'.
    split; [exact Hmax'|]. split; [exact Hlev'|].
    intros n Hn. destruct (Hcalls' n Hn) as [Hold|Hnew]; [|right; exact Hnew].
    destruct Hcalls as [Heq|Heq]; rewrite Heq in Hold.
    + left. exact Hold.
    + apply elem_of_cons in Hold as [->|Hold]; [right; lia | left; exact Hold].
Qed.

Lemma run_ops_keep_level_below_max_witness :
  max_cpu_core_num (devdata
    (run_ops stop_bit_31 upper_long
       [op_notify_state tz_hot THERMAL_TRIP_HOT; op_set_cur_state 8;
        op_set_cur_state (Z.lor stop_bit_31 8); op_set_cur_state 0]
       running_at_3)) = 8 /\
  0 <= cpucore_state (devdata
    (run_ops stop_bit_31 upper_long
       [op_notify_state tz_hot THERMAL_TRIP_HOT; op_set_cur_state 8;
        op_set_cur_state (Z.lor stop_bit_31 8); op_set_cur_state 0]
       running_at_3)) < 8 /\
  (forall n, n ∈ cpufreq_calls
    (run_ops stop_bit_31 upper_long
       [op_notify_state tz_hot THERMAL_TRIP_HOT; op_set_cur_state 8;
        op_set_cur_state (Z.lor stop_bit_31 8); op_set_cur_state 0]
       running_at_3) ->
     n ∈ cpufreq_calls running_at_3 \/ 1 <= n <= 8).
Proof.
  apply (run_ops_keep_level_below_max stop_bit_31 upper_long
           [op_notify_state tz_hot THERMAL_TRIP_HOT; op_set_cur_state 8;
            op_set_cur_state (Z.lor stop_bit_31 8); op_set_cur_state 0]
           running_at_3).
  - vm_compute. split; [discriminate | reflexivity].
  - vm_compute. discriminate.
  - intros state Hin.
    apply elem_of_cons in Hin as [Heq|Hin]; [discriminate Heq|].
    apply elem_of_cons in Hin as [Heq|Hin];
      [injection Heq as ->; vm_compute; split; discriminate|].
    apply elem_of_cons in Hin as [Heq|Hin];
      [injection Heq as ->; vm_compute; split; discriminate|].
    apply elem_of_cons in Hin as [Heq|Hin];
      [injection Heq as ->; vm_compute; split; discriminate|].
    apply elem_of_nil in Hin. destruct Hin.
Defined.

(** X3: a stopped device is inert.  Whatever sequence of operations follows,
    requests and notifications included, the record and the calls made to the
    actuator are the ones it had when the sequence began. *)
Theorem stopped_device_inert (CPU_STOP : Z) (upper_type : upper_decl)
    (os : list cooling_op) (w : world) :
  stop_flag (devdata w) = true ->
  run_ops CPU_STOP upper_type os w = w.
Proof.
  intros Hs. induction os as [|o os IH]; [reflexivity|].
  cbn [run_ops fold_left].
  replace (run_op CPU_STOP upper_type o w) with w; [exact IH|].
  destruct o; try (destruct w; reflexivity).
  - simpl. unfold exec. rewrite set_cur_state_stopped by exact Hs.
    reflexivity.
  - simpl. unfold exec. rewrite notify_state_stopped by exact Hs.
    reflexivity.
Qed.

Lemma stopped_device_inert_witness :
  run_ops stop_bit_31 upper_long
    [op_set_cur_state 0; op_notify_state tz_hot THERMAL_TRIP_HOT;
     op_set_cur_state (Z.lor stop_bit_31 5);
     op_notify_state tz_clear THERMAL_TRIP_HOT]
    stopped_at_3 = stopped_at_3.
Proof.
  apply (stopped_device_inert stop_bit_31 upper_long
           [op_set_cur_state 0; op_notify_state tz_hot THERMAL_TRIP_HOT;
            op_set_cur_state (Z.lor stop_bit_31 5);
            op_notify_state tz_clear THERMAL_TRIP_HOT]
           stopped_at_3).
  reflexivity.
Defined.

(** X4: no operation of the table fails: each returns 0, on every record and
    for every argument; and the operations that only read (the two getters,
    the three power hooks, and a notification of a trip that is not a hot
    trip) leave the record and the actuator alone. *)
Theorem operations_return_0 (CPU_STOP : Z) (upper_type : upper_decl)
    (o : cooling_op) (w : world) :
  op_status CPU_STOP upper_type o w = 0 /\
  (reads_only o = true -> run_op CPU_STOP upper_type o w = w).
Proof.
  destruct o; simpl;
    try (split; [reflexivity | intros _; destruct w; reflexivity]).
  - split; [apply set_cur_state_returns_0 | discriminate].
  - split; [apply notify_state_returns_0|].
    destruct type; try discriminate; intros _; destruct w; reflexivity.
Qed.

(** X5: on a running record, notifications of a hot trip asserting on a zone
    whose scan yields the bound [U] bring the level up one step at a time and
    hold it at [U], or at [N - 1] when that is smaller: after [k] of them the
    level is [min (k, U, N - 1)]. *)
Theorem notify_hot_ratchet_bounded (CPU_STOP : Z) (upper_type : upper_decl)
    (i h N U : Z) (tz : thermal_zone_device) (k : nat) :
  0 < N <= ULONG_MAX ->
  0 <= U <= ULONG_MAX ->
  enter_hot tz = true ->
  scan_upper upper_type tz = U ->
  let w := notify_times CPU_STOP upper_type tz k (fresh_world i h N) in
  stop_flag (devdata w) = false ->
  cpucore_state (devdata w) = Z.min (Z.of_nat k) (Z.min U (N - 1)).
Proof.
  intros HN HU Hh Hscan.
  assert (Hinv : forall k,
    let w := notify_times CPU_STOP upper_type tz k (fresh_world i h N) in
    max_cpu_core_num (devdata w) = N /\
    (stop_flag (devdata w) = false ->
     cpucore_state (devdata w) = Z.min (Z.of_nat k) (Z.min U (N - 1)))).
  { clear k. induction k as [|k IH].
    - simpl. split; [reflexivity | intros _; lia].
    - cbn zeta in *. cbn [notify_times].
      set (w := notify_times CPU_STOP upper_type tz k (fresh_world i h N)) in *.
      destruct IH as [Hmax IH].
      destruct (stop_flag (devdata w)) eqn:Hs.
      + unfold exec. rewrite notify_state_stopped by exact Hs. simpl.
        split; [exact Hmax | congruence].
      + specialize (IH eq_refl). unfold exec.
        rewrite notify_state_hot_enter by exact Hh. rewrite Hscan. cbn zeta.
        rewrite IH.
        set (c := Z.min (Z.of_nat k) (Z.min U (N - 1))) in *.
        rewrite (to_ulong_small c) by lia.
        rewrite (to_ulong_small (c + 1)) by lia.
        rewrite (to_ulong_small U) by lia.
        assert (HUne : (U =? -1) = false) by (apply Z.eqb_neq; lia).
        rewrite HUne. cbn [negb andb].
        set (s := if U <? c + 1 then U else c + 1).
        assert (Hsr : 0 <= s <= N /\
                      (s = N -> c = Z.min (Z.of_nat (S k)) (Z.min U (N - 1))) /\
                      (s <> N -> s = Z.min (Z.of_nat (S k)) (Z.min U (N - 1)))).
        { subst s. destruct (Z.ltb_spec U (c + 1)); lia. }
        destruct Hsr as (Hs0 & HsN & HsnN).
        destruct (Z.land s CPU_STOP =? CPU_STOP) eqn:Hf.
        * rewrite set_cur_state_flagged by assumption. simpl.
          destruct (0 <? _); simpl; (split; [exact Hmax | congruence]).
        * rewrite set_cur_state_plain by assumption.
          rewrite Hmax, guard_differ by lia.
          destruct (Z.eqb_spec N s) as [He|Hne]; simpl.
          -- split; [exact Hmax|]. intros _. rewrite IH. apply HsN. lia.
          -- split; [exact Hmax|]. intros _. apply HsnN. lia. }
  intros w Hs. apply (Hinv k), Hs.
Qed.

Lemma notify_hot_ratchet_bounded_witness :
  cpucore_state (devdata
    (notify_times stop_bit_31 upper_long tz_upper_2 5 (fresh_world 0 0 8)))
  = 2.
Proof.
  apply (notify_hot_ratchet_bounded stop_bit_31 upper_long 0 0 8 2
           tz_upper_2 5);
    [vm_compute; split; [reflexivity | discriminate]
    | vm_compute; split; discriminate
    | reflexivity | reflexivity | reflexivity].
Defined.

(** The request 8 on the running eight-core device changes nothing. *)
Lemma set_cur_state_at_max_witness :
  cpucore_set_cur_state stop_bit_31 8 running_at_3 = (0, running_at_3).
Proof.
  apply (set_cur_state_at_max stop_bit_31 8 running_at_3); reflexivity.
Defined.

(** The request 12 on the running eight-core device is committed, and the
    actuator is called with -4. *)
Lemma set_cur_state_above_max_witness :
  cpucore_set_cur_state stop_bit_31 12 running_at_3 =
    (0, mk_world (mk_cpucore_cooling_device 0 (Some 0) 12 8 false) [-4]).
Proof.
  apply (set_cur_state_above_max stop_bit_31 12 running_at_3);
    [reflexivity | reflexivity
    | vm_compute; split; [discriminate | reflexivity]
    | vm_compute; discriminate].
Defined.

(** * Further properties of the life cycle *)

(** The outcomes of a registration: a failure with the kernel as it was and
    the error code of the stage that failed; the error pointer of the
    framework handed on, with the id and the record of the attempt still in
    place; or a success, with a fresh record bound to a fresh handle under
    the smallest free id. *)
Lemma register_cases (pf : platform) (k k' : kernel) (r : Z + Z) :
  cpucore_cooling_register pf k = (r, k') ->
  let p := fresh (dom (kmem k)) in
  let i := first_free (size (cpucore_idr k)) 0 (cpucore_idr k) in
  (exists e, r = inl e /\ k' = k /\
     ((kzalloc_ok pf = false /\ e = - ENOMEM) \/
      (kzalloc_ok pf = true /\ e = - EINVAL /\
       ((exists ret, fst (get_idr (cpucore_idr k)) = inl ret) \/
        thermal_register pf = thermal_register_null)))) \/
  (exists e, r = inl e /\
     kzalloc_ok pf = true /\
     thermal_register pf = thermal_register_err_ptr e /\
     0 <= i <= INT_MAX /\
     k' = mk_kernel ({[i]} ∪ cpucore_idr k)
            (<[p := mk_cpucore_cooling_device i (Some (ERR_PTR e)) 0
                      (num_possible_cpus pf) false]> (kmem k))
            (thermal_cdevs k)) \/
  (exists h, r = inr h /\
     h = fresh (dom (thermal_cdevs k)) /\
     0 <= i <= INT_MAX /\
     k' = mk_kernel ({[i]} ∪ cpucore_idr k)
            (<[p := fresh_device i h (num_possible_cpus pf)]> (kmem k))
            (<[h := mk_thermal_cooling_device
                      (snprintf_dev_name (THERMAL_NAME_LENGTH pf) i) p]>
               (thermal_cdevs k))).
Proof.
  cbn zeta. unfold cpucore_cooling_register, kzalloc.
  destruct (kzalloc_ok pf) eqn:Hok.
  2:{ intros [= <- <-]. left. eexists. split; [reflexivity|].
      split; [reflexivity | left; split; reflexivity]. }
  cbn [cpucore_idr kmem thermal_cdevs].
  destruct (get_idr (cpucore_idr k)) as [[ret|i] idr'] eqn:Hg.
  - apply get_idr_err in Hg as [-> ->]. intros [= <- <-].
    left. eexists. split; [reflexivity|]. split.
    + destruct k as [idr mem cdevs]. unfold kfree, with_idr. simpl. f_equal.
      apply delete_insert_id, (kmem_fresh (mk_kernel idr mem cdevs)).
    + right. split; [reflexivity|]. split; [reflexivity|].
      left. eexists. reflexivity.
  - apply get_idr_ok in Hg as (Hi & Hrange & ->).
    pose proof (first_free_spec (size (cpucore_idr k)) 0 (cpucore_idr k)
                  ltac:(lia)) as (_ & Hfree & _).
    rewrite <- Hi in *.
    unfold thermal_of_cooling_device_register.
    destruct (thermal_register pf) as [| |e] eqn:Hout.
    + intros [= <- <-]. right. right. eexists. split; [reflexivity|].
      split; [reflexivity|]. split; [exact Hrange|].
      destruct k as [idr mem cdevs]. unfold store, with_idr, load.
      cbn [cpucore_idr kmem thermal_cdevs] in *.
      rewrite !alter_insert_eq. rewrite lookup_insert_eq. reflexivity.
    + intros [= <- <-]. left. eexists. split; [reflexivity|]. split.
      * destruct k as [idr mem cdevs]. unfold kfree, with_idr, store, load.
        cbn [cpucore_idr kmem thermal_cdevs] in *. f_equal.
        -- rewrite !lookup_alter_eq, lookup_insert_eq. simpl.
           apply release_idr_fresh, Hfree.
        -- rewrite !delete_alter_eq.
           apply delete_insert_id, (kmem_fresh (mk_kernel idr mem cdevs)).
      * right. split; [reflexivity|]. split; [reflexivity|].
        right. reflexivity.
    + intros [= <- <-]. right. left. eexists. split; [reflexivity|].
      split; [reflexivity|]. split; [reflexivity|]. split; [exact Hrange|].
      destruct k as [idr mem cdevs]. unfold store, with_idr.
      cbn [cpucore_idr kmem thermal_cdevs] in *.
      rewrite !alter_insert_eq. reflexivity.
Qed.

(** X8: a successful registration returns a handle whose [devdata] is a live
    record that carries this handle, an unset stop latch and an id that was
    free, is now outstanding and is the smallest such; the device is named
    after the id; read through the getters the record reports the number of
    possible CPUs as maximum and 0 as current level. *)
Theorem register_success_device (pf : platform) (k k' : kernel) (h : Z) :
  cpucore_cooling_register pf k = (inr h, k') ->
  exists c d,
    thermal_cdevs k' !! h = Some c /\
    kmem k' !! cdev_devdata c = Some d /\
    cdev_name c = snprintf_dev_name (THERMAL_NAME_LENGTH pf) (id d) /\
    cool_dev d = Some h /\
    stop_flag d = false /\
    0 <= id d <= INT_MAX /\
    (id d ∉ cpucore_idr k) /\
    (id d ∈ cpucore_idr k') /\
    (forall m, 0 <= m < id d -> m ∈ cpucore_idr k) /\
    eval cpucore_get_max_state (mk_world d [])
      = (0, to_ulong (num_possible_cpus pf)) /\
    eval cpucore_get_cur_state (mk_world d []) = (0, 0).
Proof.
  intros Hreg.
  apply register_cases in Hreg
    as [(e & He & _)|[(e & He & _)|(h' & Hh & Hs)]]; [discriminate..|].
  injection Hh as <-. destruct Hs as (_ & Hrange & ->).
  pose proof (first_free_spec (size (cpucore_idr k)) 0 (cpucore_idr k)
                ltac:(lia)) as (_ & Hfree & Hbelow).
  eexists _, _. cbn [thermal_cdevs kmem cpucore_idr].
  rewrite lookup_insert_eq. split; [reflexivity|].
  cbn [cdev_devdata cdev_name]. rewrite lookup_insert_eq.
  split; [reflexivity|]. cbn [fresh_device id cool_dev stop_flag].
  split; [reflexivity|]. split; [reflexivity|]. split; [reflexivity|].
  split; [exact Hrange|]. split; [exact Hfree|].
  split; [apply elem_of_union_l, elem_of_singleton; reflexivity|].
  split; [exact Hbelow|]. split; reflexivity.
Qed.

Lemma register_success_device_witness :
  exists c d,
    thermal_cdevs kernel_two_devices !! 1 = Some c /\
    kmem kernel_two_devices !! cdev_devdata c = Some d /\
    cdev_name c = snprintf_dev_name 20 (id d) /\
    cool_dev d = Some 1 /\
    stop_flag d = false /\
    0 <= id d <= INT_MAX /\
    (id d ∉ cpucore_idr kernel_one_device) /\
    (id d ∈ cpucore_idr kernel_two_devices) /\
    (forall m, 0 <= m < id d -> m ∈ cpucore_idr kernel_one_device) /\
    eval cpucore_get_max_state (mk_world d []) = (0, to_ulong 8) /\
    eval cpucore_get_cur_state (mk_world d []) = (0, 0).
Proof.
  apply (register_success_device (mk_platform true 8 thermal_register_succeeds 20)
           kernel_one_device kernel_two_devices 1).
  vm_compute. reflexivity.
Defined.

(** X9: a registration, whatever its outcome, leaves what was registered
    before as it was: every live record, every outstanding id and every
    cooling device of the framework is still there, unchanged. *)
Theorem register_keeps_existing (pf : platform) (k k' : kernel) (r : Z + Z) :
  cpucore_cooling_register pf k = (r, k') ->
  (forall p d, kmem k !! p = Some d -> kmem k' !! p = Some d) /\
  (forall i, i ∈ cpucore_idr k -> i ∈ cpucore_idr k') /\
  (forall h c, thermal_cdevs k !! h = Some c -> thermal_cdevs k' !! h = Some c).
Proof.
  intros Hreg.
  apply register_cases in Hreg
    as [(e & _ & -> & _)|[(e & _ & _ & _ & _ & ->)|(h' & _ & Hs)]].
  - repeat split; intros; assumption.
  - cbn [thermal_cdevs kmem cpucore_idr]. split; [|split].
    + intros p d Hp. rewrite lookup_insert_ne; [exact Hp|].
      intros <-. rewrite kmem_fresh in Hp. discriminate.
    + intros i Hi. apply elem_of_union_r, Hi.
    + intros h c Hc. exact Hc.
  - destruct Hs as (-> & _ & ->).
    cbn [thermal_cdevs kmem cpucore_idr]. split; [|split].
    + intros p d Hp. rewrite lookup_insert_ne; [exact Hp|].
      intros <-. rewrite kmem_fresh in Hp. discriminate.
    + intros i Hi. apply elem_of_union_r, Hi.
    + intros h c Hc. rewrite lookup_insert_ne; [exact Hc|].
      intros <-. rewrite cdevs_fresh in Hc. discriminate.
Qed.

Lemma register_keeps_existing_witness :
  (forall p d, kmem kernel_one_device !! p = Some d ->
               kmem kernel_two_devices !! p = Some d) /\
  (forall i, i ∈ cpucore_idr kernel_one_device ->
             i ∈ cpucore_idr kernel_two_devices) /\
  (forall h c, thermal_cdevs kernel_one_device !! h = Some c ->
               thermal_cdevs kernel_two_devices !! h = Some c).
Proof.
  apply (register_keeps_existing (mk_platform true 8 thermal_register_succeeds 20)
           kernel_one_device kernel_two_devices (inr 1)).
  vm_compute. reflexivity.
Defined.

(** The second device of a kernel is registered and removed again. *)
Lemma unregister_register_witness :
  cpucore_cooling_unregister (Some 1) kernel_two_devices = kernel_one_device.
Proof.
  apply (unregister_register (mk_platform true 8 thermal_register_succeeds 20)
           kernel_one_device kernel_two_devices 1).
  vm_compute. reflexivity.
Defined.



(** X12: two registrations in a row give two devices that share nothing:
    the handles differ, the records differ, the ids differ, and both records
    are live afterwards. *)
Theorem register_twice_distinct (pf1 pf2 : platform) (k k1 k2 : kernel)
    (h1 h2 : Z) :
  cpucore_cooling_register pf1 k = (inr h1, k1) ->
  cpucore_cooling_register pf2 k1 = (inr h2, k2) ->
  exists c1 c2 d1 d2,
    thermal_cdevs k2 !! h1 = Some c1 /\
    thermal_cdevs k2 !! h2 = Some c2 /\
    kmem k2 !! cdev_devdata c1 = Some d1 /\
    kmem k2 !! cdev_devdata c2 = Some d2 /\
    h1 <> h2 /\
    cdev_devdata c1 <> cdev_devdata c2 /\
    id d1 <> id d2.
Proof.
  intros H1 H2.
  apply register_cases in H1
    as [(e & He & _)|[(e & He & _)|(h & Hh & Hs1)]]; [discriminate..|].
  injection Hh as <-. destruct Hs1 as (Hh1 & _ & Hk1).
  apply register_cases in H2
    as [(e & He & _)|[(e & He & _)|(h & Hh & Hs2)]]; [discriminate..|].
  injection Hh as <-. destruct Hs2 as (Hh2 & _ & Hk2).
  set (p1 := fresh (dom (kmem k))) in *.
  set (i1 := first_free (size (cpucore_idr k)) 0 (cpucore_idr k)) in *.
  set (p2 := fresh (dom (kmem k1))) in *.
  set (i2 := first_free (size (cpucore_idr k1)) 0 (cpucore_idr k1)) in *.
  assert (Hp : p1 <> p2).
  { intros Heq. pose proof (kmem_fresh k1) as Hf. fold p2 in Hf.
    rewrite <- Heq, Hk1 in Hf. cbn [kmem] in Hf.
    rewrite lookup_insert_eq in Hf. discriminate. }
  assert (Hh : h1 <> h2).
  { intros Heq. pose proof (cdevs_fresh k1) as Hf. rewrite <- Hh2 in Hf.
    rewrite <- Heq, Hk1 in Hf. cbn [thermal_cdevs] in Hf.
    rewrite lookup_insert_eq in Hf. discriminate. }
  assert (Hi : i1 <> i2).
  { intros Heq.
    pose proof (first_free_spec (size (cpucore_idr k1)) 0 (cpucore_idr k1)
                  ltac:(lia)) as (_ & Hf & _).
    fold i2 in Hf. apply Hf. rewrite <- Heq, Hk1. cbn [cpucore_idr].
    apply elem_of_union_l, elem_of_singleton. reflexivity. }
  exists (mk_thermal_cooling_device
            (snprintf_dev_name (THERMAL_NAME_LENGTH pf1) i1) p1),
         (mk_thermal_cooling_device
            (snprintf_dev_name (THERMAL_NAME_LENGTH pf2) i2) p2),
         (fresh_device i1 h1 (num_possible_cpus pf1)),
         (fresh_device i2 h2 (num_possible_cpus pf2)).
  rewrite Hk2. cbn [thermal_cdevs kmem cdev_devdata fresh_device id].
  rewrite Hk1. cbn [thermal_cdevs kmem].
  split; [rewrite lookup_insert_ne by congruence; apply lookup_insert_eq|].
  split; [apply lookup_insert_eq|].
  split; [rewrite lookup_insert_ne by congruence; apply lookup_insert_eq|].
  split; [apply lookup_insert_eq|].
  split; [exact Hh|]. split; [exact Hp | exact Hi].
Qed.

Lemma register_twice_distinct_witness :
  exists c1 c2 d1 d2,
    thermal_cdevs kernel_two_devices !! 0 = Some c1 /\
    thermal_cdevs kernel_two_devices !! 1 = Some c2 /\
    kmem kernel_two_devices !! cdev_devdata c1 = Some d1 /\
    kmem kernel_two_devices !! cdev_devdata c2 = Some d2 /\
    0 <> 1 /\
    cdev_devdata c1 <> cdev_devdata c2 /\
    id d1 <> id d2.
Proof.
  apply (register_twice_distinct (mk_platform true 8 thermal_register_succeeds 20)
           (mk_platform true 8 thermal_register_succeeds 20) empty_kernel kernel_one_device
           kernel_two_devices 0 1);
    vm_compute; reflexivity.
Defined.

(** X13: removing a registered device, one whose record carries the handle
    it is removed by, takes exactly that device away: its handle leaves the
    framework, its id leaves the outstanding set and its record is freed; the
    other handles, ids and records stay as they are. *)
Theorem unregister_releases (k : kernel) (h : Z) (c : thermal_cooling_device)
    (d : cpucore_cooling_device) :
  thermal_cdevs k !! h = Some c ->
  kmem k !! cdev_devdata c = Some d ->
  cool_dev d = Some h ->
  cpucore_cooling_unregister (Some h) k =
    mk_kernel (cpucore_idr k ∖ {[id d]})
              (delete (cdev_devdata c) (kmem k))
              (delete h (thermal_cdevs k)).
Proof.
  intros Hc Hd Hcool. unfold cpucore_cooling_unregister. rewrite Hc.
  unfold load. rewrite Hd. simpl. rewrite Hcool.
  unfold thermal_cooling_device_unregister, with_idr, kfree.
  cbn [cpucore_idr kmem thermal_cdevs]. rewrite Hd. reflexivity.
Qed.

Lemma unregister_releases_witness :
  cpucore_cooling_unregister (Some 0) kernel_two_devices =
    mk_kernel {[1]}
      {[1 := fresh_device 1 1 8]}
      {[1 := mk_thermal_cooling_device "thermal-cpucore-1" 1]}.
Proof.
  apply (unregister_releases kernel_two_devices 0
           (mk_thermal_cooling_device "thermal-cpucore-0" 0)
           (fresh_device 0 0 8));
    vm_compute; reflexivity.
Defined.

(** With the bound declared as [unsigned long], the zone that binds the
    device at trips 0 and 1 yields no bound. *)
Lemma scan_upper_ulong_unbounded_witness :
  scan_upper upper_ulong tz_bound = -1.
Proof.
  apply (scan_upper_ulong_unbounded tz_bound).
  intros i ins. simpl.
  destruct (i =? 0); [intros [= <-]; vm_compute; split; discriminate|].
  destruct (i =? 1); [intros [= <-]; vm_compute; split; discriminate|].
  discriminate.
Defined.
